(* ===== verification/_CoqProject ===== *)
-Q . S2P
Prelude.v
JsString.v
Client.v
Render.v
View.v
Interleaving.v
Submission.v
