(* ===== verification/Prelude.v ===== *)
(** * A verification development for scraper_product_frontend

    The program is one React page, [src/src/component/Product.tsx], over a
    three-function HTTP client, [src/src/component/ProductURl.tsx].

    ** The program and how its parts interact

    - The client ([ProductURl.tsx]) wraps three axios calls:
      [submitProductURL] (POST [{url}] to /api/v1/products),
      [fetchProducts] (GET /api/v1/products) and [fetchCategories]
      (GET /api/v1/categories).  Each returns [response.data] on success
      and throws an [Error] with a fixed message on any failure.
    - The page ([Product.tsx]) keeps eight pieces of React state ([url],
      [products], [categories], [selectedCategory], [isSubmittingURL],
      [error], [successMessage], [showFullDescription]).  Its handlers
      ([getProducts], [getCategories], [handleURLSubmit],
      [handleCategoryChange], [toggleDescription], the mount effect and
      the input's [onChange]) call the client and write the state; its
      JSX renders the state ([truncateDescription], cards, size buttons,
      category options, placeholder).
    - The handlers are asynchronous: each [await] of the client is a
      suspension point.  Between a request and its reply any user event
      or any other reply may run, and replies come back in any order.

    ** Files, modules and how they correspond to the code

    - [Prelude.v] (this file): JavaScript strings as lists of UTF-16 code
      units ([jsstring]), the literal notation [‹"..."›] of [js_scope],
      the hint database [js], the tactics [js_cases], [case_if],
      [take_step], [reached], and the list lemmas shared by the others.
    - [JsString.v], [Module JsString]: the ECMAScript built-ins the code
      calls, modelled from the language definition (they are not code of
      the repository): [length], [slice], [trim], [split] on one code
      unit and its inverse [join], truthiness, [Number(string)] and
      [String(number)], strict equality with a number, and the JSON
      values [jsval] the backend sends.  Lemmas: [slice_prefix], the
      [trim] lemmas, [join_split], [length_split],
      [to_number_number_to_string].
    - [Client.v]: the backend records ([product], [category]), the
      array-or-not [payload], and [Module ProductURl]: [request],
      [axios_error] (message and HTTP status), [axios_outcome],
      [result], a [call] (the request sent before the
      [await] and the continuation after it), [rethrow] and the three
      exported functions.  The class [ApiClient] is the interface the page
      uses; [ApiClientSpec] states what the page relies on (data passed
      through, visible uniform failure messages, the URL posted); the
      instance [ProductURl_client] is [ProductURl.tsx] and
      [ProductURl_spec] proves it meets the interface.
    - [Render.v], [Module Render]: the component's [state] (its
      [useState]s) and the JSX as [render : state -> option page]
      ([None] when the render throws), with [truncateDescription],
      [render_sizes], [render_card], [render_body] and [option_values].
    - [View.v], [Module View]: React's setters ([update], which writes
      while the page is mounted and does nothing after it is unmounted);
      a [world] is the state, the handlers suspended at an [await]
      ([pending]), the log of the requests sent and whether the page is
      mounted.  Each handler is split at its [await]:
      [getProducts]/[getProducts_resume], [getCategories]/
      [getCategories_resume], [handleURLSubmit]/[handleURLSubmit_resume],
      plus [handleCategoryChange], [mount], [toggleDescription],
      [onUrlChange].  [step] is the executable transition function (user
      events guarded by what a mounted page offers, [Unmount], replies to
      any request in flight, before or after unmounting), [run] iterates it, [reachable] is its closure from
      [init_world] (first render, then the mount effect).  The section
      is parameterised by an [ApiClient] and the theorems assume only
      [ApiClientSpec].
    - [Interleaving.v], [Module Interleaving]: draining the requests in
      flight, the synchronous network and the spec's abstract view
      [spec_products], commutation of continuations, and the concrete
      interleavings that break the spec.
    - [Submission.v], [Module Submission]: the spec's submission machine
      [Idle -> Submitting -> Idle] ([phase], [spec_transition],
      [spec_run]) and the abstraction [phase_of] of a world.

    ** What the theorems show (PROJECT.json lists them as C1..C35)

    - invariants by rule induction over [reachable]: the submitting flag
      is set exactly when one submission is in flight while the page is
      mounted (C1), so the rendered submit button is disabled and reads
      "Submitting..." exactly then (C25); every request
      sent is a list fetch or the POST of a nonempty URL (C9); messages are
      never dismissed (C11);
    - the functional behaviour of every handler on every branch: category
      selection with the [Number(String(id))] round trip (C2), submission
      success, failure and empty URL (C3-C5), fetch failure, non-array
      payloads and string ids (C18-C20); the two mount fetches settle
      independently in either order, each filling its own slot (C27);
    - the type of the error slot: it only ever holds null, the local
      validation message, the TypeError of [filter] or a message of the
      client (C28), proved with the inversion lemmas [step_inv] and
      [resume_inv] of View.v;
    - error handling: a failed reply keeps both lists and never makes
      the page crash or recover (C30); with the client of
      [ProductURl.tsx], the page ignores the detail of an axios error,
      its message and HTTP status (C32, spec section 9: [rethrow]
      replaces it by a fixed message);
    - liveness: from every reachable world where the page is mounted,
      the trace of replies a network gives to the oldest request in
      flight, whatever their outcomes and with no user event, reaches a
      settled page: nothing in flight, still mounted, the button enabled
      ([eventually net settled], C29);
    - refinement: the submitting flag refines the spec's submission
      machine along every run that ends with the page mounted (C26);
      with a network that answers at once and no submission,
      the page meets the spec's view "the products shown are the last
      fetch filtered by the selected category" (C6); with replies in
      the order of the requests, every products reply carrying the
      backend's list [db] and no submission, it shows [db] filtered by
      the selected category under any interleaving of user events
      whenever no products request is in flight (C31), so the stale reply of
      C7 needs replies out of order; two products replies give the same
      world in either order exactly when they show the same list (C33);
    - termination: the requests in flight are always drained by at most
      [weight] = length + submissions replies (C10);
    - bounds: a run of n events and replies sends at most n requests,
      appended to the log (C35, from [step_sent]);
    - rendering: placeholder, throwing renders (a non-array categories
      payload, or a size that is a nonzero number or [true]),
      descriptions and the toggle, sizes, cards in order (C12-C17); the rendered options carry
      exactly the values [step] lets the selector send (C34);
    - findings: a stale reply overrides the selection (C7); the reload
      after a submission ignores the selection (C8); a categories reply
      and a later products reply give the same world in either order
      (with the index shift of [delete]) unless both write the shared
      error slot (C21), so the
      message shown depends on the reply order (C22); the expansion flag
      is shared by all cards (C23);
    - unmounting: the setters do nothing once the page is unmounted
      (React's semantics, built into [update], so no theorem is claimed
      about it), yet a submission answered after it still sends a
      products request: nothing is cancelled (C24).  The handler theorems C3-C5 and
      C18-C20 are stated for a mounted page.

    ** Bounds and fuel

    - Numbers are integers in the safe range |z| <= 2^53 - 1 ([is_safe]);
      [Number] is modelled on the decimal-integer subset of
      StringNumericLiteral, other strings give [None] (read as "equal to
      no integer").  The values that reach [handleCategoryChange] are the
      select's option values, printed ids or the empty string, which are
      in the subset.
    - [drain] takes its fuel as an argument; C10 shows that [weight] of
      the requests in flight is enough, since each reply lowers it.
    - The examples run the executable model with [vm_compute].

    ** Not modelled

    - CSS and layout; the browser's type=url validation (only [required]
      is); React StrictMode's double effects; the exact TypeError message
      for a [null] products payload (one message stands for every
      non-array).
    - React 18 unmounts the root after a render that throws; [step]
      keeps such a page mounted, and a later reply may make it render
      again.  This only adds worlds, so the invariants over [reachable]
      still hold of the real page.
    - The rest of the [Number] grammar (decimals, exponents, hex,
      Infinity): it changes no behaviour of the page, since [Number] only
      receives the selector's values (C34: printed ids or the empty
      string) and the backend's ids are JSON integers.
    - Every line of the two source files that is not an import, a blank
      line or a closing brace is modelled: the map of PROJECT.json names
      the definition of each.
*)

From Stdlib Require Export ZArith Lia.
From stdpp Require Export base list decidable.
From Stdlib Require String Ascii.
Export String.StringSyntax.
Delimit Scope string_scope with string.

Declare Scope js_scope.
Delimit Scope js_scope with js.

(** A UTF-16 code unit, and a JavaScript string as the list of them. *)
Definition codeunit := N.
Definition jsstring := list codeunit.

(** An ASCII literal as a JavaScript string. *)
Definition lit (s : String.string) : jsstring :=
  map Ascii.N_of_ascii (String.list_ascii_of_string s).

Notation "‹ s ›" := (lit s%string) (format "‹ s ›") : js_scope.
Open Scope js_scope.

Create HintDb js.

(** ** Shared list lemmas *)

Lemma filter_sublist {A} (f : A -> bool) (l : list A) :
  sublist (List.filter f l) l.
Proof.
  induction l as [|x l IH]; simpl; [constructor|].
  destruct (f x); [by apply sublist_skip | by apply sublist_cons].
Qed.

Lemma filter_all_true {A} (f : A -> bool) (l : list A) :
  Forall (fun x => f x = true) (List.filter f l).
Proof.
  induction l as [|x l IH]; simpl; [constructor|].
  destruct (f x) eqn:E; [constructor|]; auto.
Qed.

Lemma filter_keeps {A} (f : A -> bool) (l : list A) (x : A) :
  In x l -> f x = true -> In x (List.filter f l).
Proof. intros. apply filter_In. auto. Qed.

Lemma filter_all_false {A} (f : A -> bool) (l : list A) :
  Forall (fun x => f x = false) l -> List.filter f l = [].
Proof. induction 1 as [|x l Hx _ IH]; simpl; [done|]. by rewrite Hx. Qed.

#[export] Hint Resolve filter_sublist filter_all_true filter_keeps filter_all_false : js.

(** Removing two entries of a list in either order, with the index of
    the later one shifted when the earlier one goes first. *)
Lemma delete_delete_le {A} (l : list A) (i j : nat) :
  i <= j -> delete j (delete i l) = delete i (delete (S j) l).
Proof.
  revert i j. induction l as [|x l IH]; intros [|i] [|j] Hij; simpl; try done; try lia.
  f_equal. apply IH. lia.
Qed.

(** ** Tactics *)

(** Split the [if]s and [match]es of a goal on booleans and options. *)
Ltac js_cases :=
  repeat match goal with
         | |- context [if ?b then _ else _] => destruct b eqn:?
         | |- context [match ?o with Some _ => _ | None => _ end] => destruct o eqn:?
         end.

(** Case on the guard of a goal [(if b then _ else _) = _ -> _],
    naming its equation [G]. *)
Ltac case_if G :=
  match goal with |- (if ?b then _ else _) = _ -> _ => destruct b eqn:G end.

(** Evaluate an executable computation [e] that returns [Some x] and
    record the equation [H : e = Some x], with [x] as a value. *)
Ltac take_step e H :=
  let v := eval vm_compute in e in
  lazymatch v with
  | Some ?x => assert (H : e = Some x) by (vm_compute; reflexivity)
  end.

(** The value on the right of such an equation. *)
Ltac reached H :=
  lazymatch type of H with _ = Some ?x => x end.
