(* ===== verification/JsString.v ===== *)
(** * JavaScript built-ins used by the page

    The string and number operations of ECMAScript that [Product.tsx]
    calls: [String.prototype.length], [slice], [trim], [split] on a
    one-code-unit separator, [Number(string)], [String(number)], the
    truthiness of values, and the JSON values the backend sends.  They
    are language semantics, modelled from the ECMAScript definitions, and
    carry the lemmas the component files use. *)

From S2P Require Import Prelude.
From Stdlib Require Import DecimalN.

Module JsString.

Local Open Scope Z_scope.

(** ** Length and [slice] *)

(** [s.length]: the number of UTF-16 code units. *)
Definition js_length (s : jsstring) : Z := Z.of_nat (length s).

(** The clamping of a relative index in [String.prototype.slice]:
    negative indices count from the end, all are clamped to [0, len]. *)
Definition rel_index (len i : Z) : Z :=
  if i <? 0 then Z.max (len + i) 0 else Z.min i len.

(** [s.slice(start, end)]. *)
Definition slice (s : jsstring) (start end_ : Z) : jsstring :=
  let len := js_length s in
  let from := rel_index len start in
  let to := rel_index len end_ in
  take (Z.to_nat (Z.max (to - from) 0)) (drop (Z.to_nat from) s).

(** ** White space and [trim] *)

(** ECMAScript WhiteSpace and LineTerminator code points (the ones in
    the Basic Multilingual Plane, which are single code units). *)
Definition is_js_space (c : codeunit) : bool :=
  existsb (N.eqb c) [9; 10; 11; 12; 13; 32; 160; 5760; 8232; 8233; 8239;
                     8287; 12288; 65279]%N
  || ((8192 <=? c)%N && (c <=? 8202)%N).

Fixpoint trim_start (s : jsstring) : jsstring :=
  match s with
  | [] => []
  | c :: r => if is_js_space c then trim_start r else s
  end.

Definition trim_end (s : jsstring) : jsstring := rev (trim_start (rev s)).

(** [s.trim()]. *)
Definition trim (s : jsstring) : jsstring := trim_end (trim_start s).

(** ** [split] on a one-code-unit separator, and its inverse [join] *)

(** [s.split(sep)] for a separator string of length one and no limit:
    the pieces between separators, the one-piece list [[[]]] for the empty string. *)
Fixpoint split (sep : codeunit) (s : jsstring) : list jsstring :=
  match s with
  | [] => [[]]
  | c :: r =>
      if N.eqb c sep then [] :: split sep r
      else match split sep r with
           | [] => [[c]]
           | w :: ws => (c :: w) :: ws
           end
  end.

(** [pieces.join(sep)]. *)
Fixpoint join (sep : codeunit) (ws : list jsstring) : jsstring :=
  match ws with
  | [] => []
  | [w] => w
  | w :: rest => w ++ sep :: join sep rest
  end.

(** ** Truthiness, numbers and JSON values *)

(** A string is truthy exactly when it is not empty. *)
Definition str_truthy (s : jsstring) : bool :=
  match s with [] => false | _ => true end.

(** [Number.MAX_SAFE_INTEGER]. *)
Definition max_safe : Z := 2 ^ 53 - 1.

Definition is_safe (z : Z) : bool := Z.abs z <=? max_safe.

(** Decimal digits as code units '0'..'9'. *)
Fixpoint uint_to_js (d : Decimal.uint) : jsstring :=
  match d with
  | Decimal.Nil => []
  | Decimal.D0 d => 48%N :: uint_to_js d
  | Decimal.D1 d => 49%N :: uint_to_js d
  | Decimal.D2 d => 50%N :: uint_to_js d
  | Decimal.D3 d => 51%N :: uint_to_js d
  | Decimal.D4 d => 52%N :: uint_to_js d
  | Decimal.D5 d => 53%N :: uint_to_js d
  | Decimal.D6 d => 54%N :: uint_to_js d
  | Decimal.D7 d => 55%N :: uint_to_js d
  | Decimal.D8 d => 56%N :: uint_to_js d
  | Decimal.D9 d => 57%N :: uint_to_js d
  end.

Definition digit_ctor (c : codeunit) : option (Decimal.uint -> Decimal.uint) :=
  match c with
  | 48%N => Some Decimal.D0 | 49%N => Some Decimal.D1
  | 50%N => Some Decimal.D2 | 51%N => Some Decimal.D3
  | 52%N => Some Decimal.D4 | 53%N => Some Decimal.D5
  | 54%N => Some Decimal.D6 | 55%N => Some Decimal.D7
  | 56%N => Some Decimal.D8 | 57%N => Some Decimal.D9
  | _ => None
  end.

Fixpoint js_to_uint (s : jsstring) : option Decimal.uint :=
  match s with
  | [] => Some Decimal.Nil
  | c :: r =>
      match digit_ctor c, js_to_uint r with
      | Some k, Some d => Some (k d)
      | _, _ => None
      end
  end.

(** [String(z)] for a safe integer: optional minus sign and decimal
    digits, as Number::toString prints integers below 10^21. *)
Definition number_to_string (z : Z) : jsstring :=
  match z with
  | Z0 => [48%N]
  | Zpos p => uint_to_js (N.to_uint (Npos p))
  | Zneg p => 45%N :: uint_to_js (N.to_uint (Npos p))
  end.

(** The value of a nonempty run of decimal digits, when it is safe. *)
Definition unsigned_value (r : jsstring) : option Z :=
  match r with
  | [] => None
  | _ =>
      match js_to_uint r with
      | Some d => let z := Z.of_N (N.of_uint d) in
                  if is_safe z then Some z else None
      | None => None
      end
  end.

(** [Number(s)] on the decimal-integer subset of StringNumericLiteral:
    surrounding white space is ignored, the empty string is 0, an
    optional sign precedes the digits.  [None] stands for every other
    string (NaN for most, a non-integer or unsafe value for the rest),
    which the model treats as equal to no integer. *)
Definition to_number (s : jsstring) : option Z :=
  match trim s with
  | [] => Some 0
  | 43%N :: r => unsigned_value r
  | 45%N :: r => option_map Z.opp (unsigned_value r)
  | t => unsigned_value t
  end.

(** The JSON values a field of a backend record may hold ([JNull] also
    stands for a missing field, read as [undefined]). *)
Inductive jsval :=
| JNum (z : Z)
| JStr (s : jsstring)
| JBool (b : bool)
| JNull.

#[export] Instance jsval_eq_dec : EqDecision jsval.
Proof. solve_decision. Defined.

Definition truthy (v : jsval) : bool :=
  match v with
  | JNum z => negb (Z.eqb z 0)
  | JStr s => str_truthy s
  | JBool b => b
  | JNull => false
  end.

(** [v === Number(s)] where [n] is the result of [Number(s)]: strict
    equality holds only between two numbers of the same value. *)
Definition strict_eq_num (v : jsval) (n : option Z) : bool :=
  match v, n with
  | JNum z, Some m => Z.eqb z m
  | _, _ => false
  end.

(** The text React renders for a value in JSX: numbers in decimal,
    strings as they are, [null], [undefined] and booleans as nothing. *)
Definition jsx_text (v : jsval) : jsstring :=
  match v with
  | JNum z => number_to_string z
  | JStr s => s
  | JBool _ | JNull => []
  end.

(** ** Lemmas *)

Lemma rel_index_in (len i : Z) :
  0 <= len -> 0 <= i -> rel_index len i = Z.min i len.
Proof. intros. unfold rel_index. destruct (Z.ltb_spec i 0); lia. Qed.

(** [s.slice(0, n)] is the prefix of [n] code units. *)
Lemma slice_prefix (s : jsstring) (n : Z) :
  0 <= n -> slice s 0 n = take (Z.to_nat n) s.
Proof.
  intros Hn. unfold slice, js_length.
  rewrite !rel_index_in by lia.
  replace (Z.min 0 (Z.of_nat (length s))) with 0 by lia.
  rewrite drop_0, Z.sub_0_r.
  destruct (Z.le_gt_cases n (Z.of_nat (length s))).
  - rewrite Z.min_l, Z.max_l by lia. reflexivity.
  - rewrite Z.min_r, Z.max_l by lia. rewrite Nat2Z.id, !take_ge; [done | lia | lia].
Qed.

(** [trim_start] stops at the first code unit that is not white space. *)
Lemma trim_start_head (s : jsstring) c r :
  trim_start s = c :: r -> is_js_space c = false.
Proof.
  induction s as [|d s IH]; simpl; [done|].
  destruct (is_js_space d) eqn:E; [exact IH|]. by intros [= -> _].
Qed.

Lemma trim_start_id (s : jsstring) :
  Forall (fun c => is_js_space c = false) s -> trim_start s = s.
Proof. destruct s as [|c s]; [done|]. inversion 1; subst. simpl. by rewrite H2. Qed.

Lemma trim_start_app_last (l : jsstring) e :
  is_js_space e = false -> trim_start (l ++ [e]) = trim_start l ++ [e].
Proof.
  intros He. induction l as [|d l IH]; simpl; [by rewrite He|].
  destruct (is_js_space d); [exact IH | done].
Qed.

(** The result of [trim] neither starts nor ends with white space. *)
Lemma trim_no_leading (s : jsstring) c r :
  trim s = c :: r -> is_js_space c = false.
Proof.
  unfold trim, trim_end.
  destruct (trim_start s) as [|e u] eqn:Hs; [done|].
  assert (He : is_js_space e = false) by (eapply trim_start_head; eauto).
  simpl. rewrite trim_start_app_last, rev_app_distr by done.
  by intros [= <- _].
Qed.

Lemma trim_no_trailing (s : jsstring) c r :
  trim s = r ++ [c] -> is_js_space c = false.
Proof.
  unfold trim, trim_end. intros H.
  apply (f_equal (@rev codeunit)) in H. rewrite rev_involutive, rev_app_distr in H.
  simpl in H. eapply trim_start_head; eauto.
Qed.

(** A string without white space is its own [trim]. *)
Lemma trim_id (s : jsstring) :
  Forall (fun c => is_js_space c = false) s -> trim s = s.
Proof.
  intros H. unfold trim, trim_end.
  rewrite (trim_start_id s H), trim_start_id, rev_involutive; [done|].
  by apply Forall_rev.
Qed.

#[export] Hint Resolve trim_no_leading trim_no_trailing : js.

(** ** [split] and [join] *)

(** Joining the pieces with the separator gives the string back. *)

(** No piece contains the separator. *)

(** There is one piece more than there are separators. *)

Lemma split_not_nil sep (s : jsstring) : split sep s <> [].
Proof.
  induction s as [|c s IH]; simpl; [done|].
  destruct (N.eqb c sep); [done|]. by destruct (split sep s).
Qed.

Lemma join_cons_piece sep c w ws :
  join sep ((c :: w) :: ws) = c :: join sep (w :: ws).
Proof. by destruct ws. Qed.

(** Joining the pieces with the separator gives the string back. *)
Lemma join_split sep (s : jsstring) : join sep (split sep s) = s.
Proof.
  induction s as [|c s IH]; simpl; [done|].
  destruct (N.eqb_spec c sep) as [->|Hne].
  - pose proof (split_not_nil sep s) as Hn.
    destruct (split sep s) as [|w ws]; [done|]. by rewrite <- IH.
  - pose proof (split_not_nil sep s) as Hn.
    destruct (split sep s) as [|w ws]; [done|].
    rewrite <- IH. apply join_cons_piece.
Qed.

(** No piece contains the separator. *)
Lemma split_pieces_no_sep sep (s : jsstring) :
  Forall (fun w => ~ In sep w) (split sep s).
Proof.
  induction s as [|c s IH]; simpl; [repeat constructor; auto|].
  destruct (N.eqb_spec c sep) as [->|Hne]; [constructor; auto|].
  destruct (split sep s) as [|w ws]; [repeat constructor; simpl; intuition|].
  inversion IH; subst. constructor; [simpl; intuition | done].
Qed.

(** There is one piece more than there are separators. *)
Lemma length_split sep (s : jsstring) :
  length (split sep s) = S (count_occ N.eq_dec s sep).
Proof.
  induction s as [|c s IH]; simpl; [done|].
  destruct (N.eqb_spec c sep) as [->|Hne].
  - destruct (N.eq_dec sep sep); [simpl; by rewrite IH | done].
  - destruct (N.eq_dec c sep); [done|].
    pose proof (split_not_nil sep s). destruct (split sep s); [done|].
    simpl in *. done.
Qed.

(** ** The decimal round trip *)

Lemma js_to_uint_to_js (d : Decimal.uint) : js_to_uint (uint_to_js d) = Some d.
Proof. induction d; simpl; rewrite ?IHd; reflexivity. Qed.

Lemma uint_to_js_no_space (d : Decimal.uint) :
  Forall (fun c => is_js_space c = false) (uint_to_js d).
Proof. induction d; simpl; constructor; auto. Qed.

Lemma pos_to_uint_nonempty (p : positive) :
  exists c r, uint_to_js (N.to_uint (Npos p)) = c :: r /\ (48 <= c <= 57)%N.
Proof.
  simpl. pose proof (DecimalPos.Unsigned.to_uint_nonnil p) as Hnz.
  destruct (Pos.to_uint p); simpl; try done; eexists _, _; split; try reflexivity; lia.
Qed.

Lemma unsigned_value_print (p : positive) :
  is_safe (Zpos p) = true ->
  unsigned_value (uint_to_js (N.to_uint (Npos p))) = Some (Zpos p).
Proof.
  intros Hs. unfold unsigned_value.
  destruct (pos_to_uint_nonempty p) as (c & r & Hcr & _). rewrite Hcr, <- Hcr.
  rewrite js_to_uint_to_js, DecimalN.Unsigned.of_to. simpl. by rewrite Hs.
Qed.

(** [Number(String(z)) = z] for every safe integer [z]. *)
Lemma to_number_number_to_string (z : Z) :
  is_safe z = true -> to_number (number_to_string z) = Some z.
Proof.
  intros Hs. unfold to_number.
  destruct z as [|p|p]; [reflexivity| |].
  - change (number_to_string (Zpos p)) with (uint_to_js (N.to_uint (Npos p))).
    rewrite trim_id by apply uint_to_js_no_space.
    pose proof (unsigned_value_print p Hs) as Hu.
    destruct (pos_to_uint_nonempty p) as (c & r & Hcr & Hc).
    rewrite Hcr in Hu |- *.
    assert (c = 48 \/ c = 49 \/ c = 50 \/ c = 51 \/ c = 52 \/ c = 53 \/
            c = 54 \/ c = 55 \/ c = 56 \/ c = 57)%N as Hd by lia.
    by repeat destruct Hd as [->|Hd]; [..|subst].
  - change (number_to_string (Zneg p)) with (45%N :: uint_to_js (N.to_uint (Npos p))).
    rewrite trim_id by (constructor; [reflexivity | apply uint_to_js_no_space]).
    cbv beta iota. rewrite unsigned_value_print; [reflexivity|].
    unfold is_safe in *. simpl in *. exact Hs.
Qed.

(** A printed number is never the empty string. *)
Lemma number_to_string_truthy (z : Z) : str_truthy (number_to_string z) = true.
Proof.
  destruct z as [|p|p]; [done| |done].
  destruct (pos_to_uint_nonempty p) as (c & r & Hcr & _). unfold number_to_string. by rewrite Hcr.
Qed.

End JsString.
