(* ===== verification/Client.v ===== *)
(** * The API client ([src/src/component/ProductURl.tsx])

    The records the backend returns, the outcome of an axios request,
    the three exported client functions, and the interface through which
    the view uses them: the class [ApiClient] of operations and the class
    [ApiClientSpec] of the laws the view relies on, with the instance of
    [ProductURl.tsx] and the proof that it meets them. *)

From S2P Require Import Prelude JsString.
Import JsString.

(** ** Backend data *)

(** A product record of GET /api/v1/products.  The title and the
    description are strings in the backend's schema; the fields whose
    JSON type the code tests ([category_id] with [===], [size] with
    truthiness and [.trim()], [price] rendered as text) are [jsval]. *)
Record product := mkProduct {
  p_id : Z;
  title : jsstring;
  description : jsstring;
  price : jsval;
  category_id : jsval;
  size : jsval
}.

(** A category record of GET /api/v1/categories. *)
Record category := mkCategory {
  c_id : Z;
  c_name : jsstring
}.

#[export] Instance product_eq_dec : EqDecision product.
Proof. solve_decision. Defined.
#[export] Instance category_eq_dec : EqDecision category.
Proof. solve_decision. Defined.

(** [response.data] of a list endpoint: a JSON array of records, or any
    other JSON value (an object, a string, [null], ...). *)
Inductive payload (A : Type) :=
| PArray (l : list A)
| PNotArray.
Arguments PArray {A} l.
Arguments PNotArray {A}.

Module ProductURl.

(** ** Requests and outcomes *)

Definition API_URL : jsstring := ‹"http://localhost:3000/api/v1/products"›.
Definition API_Category : jsstring := ‹"http://localhost:3000/api/v1/categories"›.

(** The HTTP request an axios call sends. *)
Inductive request :=
| Post (endpoint : jsstring) (body_url : jsstring)
| Get (endpoint : jsstring).

(** The error axios rejects with: its [message] and, when the server
    answered, the HTTP status of [error.response] ([None] for a network
    error or a timeout). *)
Record axios_error := mkAxiosError {
  err_message : jsstring;
  err_status : option Z
}.

(** How an axios request settles: resolved with [response.data] (a 2xx
    status), or rejected with an [axios_error] (a transport error or a
    non-2xx status). *)
Inductive axios_outcome (A : Type) :=
| AxiosOk (data : A)
| AxiosError (err : axios_error).
Arguments AxiosOk {A} data.
Arguments AxiosError {A} err.

(** The error of a request that got no response. *)
Definition network_error : axios_error := mkAxiosError ‹"Network Error"› None.

(** How a client function's promise settles: with a value, or with an
    [Error] whose [message] is given. *)
Inductive result (A : Type) :=
| Resolved (v : A)
| Rejected (message : jsstring).
Arguments Resolved {A} v.
Arguments Rejected {A} message.

(** An asynchronous client function: the request it sends before its
    [await], and what it does with axios's outcome after it. *)
Record call (A : Type) := mkCall {
  call_request : request;
  call_finish : axios_outcome A -> result A
}.
Arguments mkCall {A} call_request call_finish.
Arguments call_request {A} c.
Arguments call_finish {A} c o.

(** The body of a [try { const response = await axios...; return
    response.data } catch (error) { throw new Error(msg) }] wrapper: the
    caught [error] is not read. *)
Definition rethrow {A} (msg : jsstring) (o : axios_outcome A) : result A :=
  match o with
  | AxiosOk d => Resolved d
  | AxiosError _ => Rejected msg
  end.

(** The POST returns [response.data], whose shape the spec leaves open
    ("success" only): its type [D] is a parameter. *)
Definition submitProductURL {D : Type} (url : jsstring) : call D :=
  mkCall (Post API_URL url) (rethrow ‹"Failed to submit URL. Please try again."›).

Definition fetchProducts : call (payload product) :=
  mkCall (Get API_URL) (rethrow ‹"Failed to fetch products. Please try again."›).

Definition fetchCategories : call (payload category) :=
  mkCall (Get API_Category) (rethrow ‹"Failed to fetch category. Please try again."›).

End ProductURl.

Export ProductURl.

(** ** The interface the view is proved against *)

(** The three functions the view imports; the view awaits the POST and
    discards its value, so the submission's data is [unit] here. *)
Class ApiClient := {
  api_submit : jsstring -> call unit;
  api_products : call (payload product);
  api_categories : call (payload category)
}.

(** What the view relies on: each call passes the data of a success
    through, turns every failure, whatever axios's error, into an [Error]
    with one message that is not empty (so that [error && <p>] shows
    it), and the submission posts the URL it is given. *)
Definition passes_data {A} (c : call A) : Prop :=
  forall d, call_finish c (AxiosOk d) = Resolved d.

Definition fails_visibly {A} (c : call A) : Prop :=
  exists m, (forall e, call_finish c (AxiosError e) = Rejected m) /\ str_truthy m = true.

Class ApiClientSpec `{ApiClient} : Prop := {
  submit_passes : forall url, passes_data (api_submit url);
  submit_fails : forall url, fails_visibly (api_submit url);
  submit_message_uniform : forall url url' e,
    call_finish (api_submit url) (AxiosError e) = call_finish (api_submit url') (AxiosError e);
  submit_posts : forall url, exists e, call_request (api_submit url) = Post e url;
  products_passes : passes_data api_products;
  products_fails : fails_visibly api_products;
  categories_passes : passes_data api_categories;
  categories_fails : fails_visibly api_categories
}.

#[export] Instance ProductURl_client : ApiClient := {|
  api_submit := submitProductURL (D := unit);
  api_products := fetchProducts;
  api_categories := fetchCategories
|}.

(** [ProductURl.tsx] meets the interface. *)
#[export] Instance ProductURl_spec : ApiClientSpec.
Proof.
  split; unfold passes_data, fails_visibly; simpl;
    intros; eauto; by eexists.
Qed.
