(* ===== verification/Render.v ===== *)
(** * The rendering of [Product] ([src/src/component/Product.tsx])

    The state the component declares with [useState] (lines 5-12), and
    the JSX it returns (lines 70-166) as a function from that state to a
    description of the page: the messages, the form, the category
    options and either the product cards or the placeholder.  A render
    that throws (a [TypeError] in [categories.map] or in
    [product.size.trim]) is [None]: React then tears the page down. *)

From S2P Require Import Prelude JsString Client.
Import JsString.

Module Render.

(** ** The component's state *)

(** The eight [useState] hooks of [Product] (lines 5-12), one field per
    hook, in their order; [error] is [null] or a message. *)
Record state := mkState {
  url : jsstring;
  products : payload product;
  categories : payload category;
  selectedCategory : jsstring;
  isSubmittingURL : bool;
  error : option jsstring;
  successMessage : jsstring;
  showFullDescription : bool
}.

(** Their initial values, in order: the empty string, two empty
    arrays, the empty string, [false], [null], the empty string and
    [false]. *)
Definition initial_state : state :=
  mkState [] (PArray []) (PArray []) [] false None [] false.

(** ** Descriptions *)

(** [truncateDescription(description, limit)]. *)
Definition truncateDescription (description : jsstring) (limit : Z) : jsstring :=
  if (js_length description >? limit)%Z
  then slice description 0 limit ++ ‹"..."›
  else description.

(** The default [limit] of [truncateDescription], and the threshold of
    the toggle button. *)
Definition description_limit : Z := 200.

(** ** Sizes *)

(** What [{product.size && product.size.trim() && (<div>...)}] renders:
    nothing for a falsy value other than 0 (and for a blank string),
    the text "0" for the number 0 (JSX renders numbers), a button per
    comma-separated piece, trimmed, for a string with content.  Any
    other truthy value has no [trim] method: the render throws. *)
Inductive size_view :=
| SizeNothing
| SizeText (t : jsstring)
| SizeButtons (labels : list jsstring).

Definition comma : codeunit := 44%N.

Definition render_sizes (v : jsval) : option size_view :=
  match v with
  | JNull | JBool false => Some SizeNothing
  | JNum z => if Z.eqb z 0 then Some (SizeText (number_to_string z)) else None
  | JBool true => None
  | JStr s =>
      if str_truthy s then
        if str_truthy (trim s) then Some (SizeButtons (map trim (split comma s)))
        else Some SizeNothing
      else Some SizeNothing
  end.

(** ** A product card (lines 123-159) *)

Record card := mkCard {
  card_key : Z;
  card_title : jsstring;
  card_text : jsstring;
  card_toggle : option jsstring;
  card_price : jsstring;
  card_sizes : size_view
}.

Definition render_card (expanded : bool) (p : product) : option card :=
  match render_sizes (size p) with
  | None => None
  | Some sv =>
      Some (mkCard (p_id p) (title p)
              (if expanded then description p
               else truncateDescription (description p) description_limit)
              (if (js_length (description p) >? 200)%Z
               then Some (if expanded then ‹"Show less"› else ‹"Read more"›)
               else None)
              (‹"Price: Rs"› ++ jsx_text (price p))
              sv)
  end.

(** ** The page (lines 77-166) *)

Inductive body :=
| Cards (cs : list card)
| Placeholder.

Record page := mkPage {
  pg_error : option jsstring;
  pg_success : option jsstring;
  pg_url : jsstring;
  pg_button_label : jsstring;
  pg_button_disabled : bool;
  pg_selected : jsstring;
  pg_options : list (jsstring * jsstring);
  pg_body : body
}.

(** [<option key={category.id} value={category.id}>]: React sets the
    attribute to [String(category.id)]. *)
Definition category_option (c : category) : jsstring * jsstring :=
  (number_to_string (c_id c), c_name c).

Definition all_option : jsstring * jsstring := ([], ‹"All Categories"›).

(** [{error && <p>{error}</p>}]: shown when [error] is a nonempty string. *)
Definition shown (m : option jsstring) : option jsstring :=
  match m with
  | Some s => if str_truthy s then Some s else None
  | None => None
  end.

(** [Array.isArray(products) && products.length > 0 ? products.map(...)
    : <p>No products available</p>]. *)
Definition render_body (expanded : bool) (ps : payload product) : option body :=
  match ps with
  | PArray ((_ :: _) as l) => Cards <$> mapM (render_card expanded) l
  | _ => Some Placeholder
  end.

Definition placeholder_text : jsstring := ‹"No products available"›.

Definition render (s : state) : option page :=
  match categories s with
  | PNotArray => None
  | PArray cs =>
      match render_body (showFullDescription s) (products s) with
      | None => None
      | Some b =>
          Some (mkPage (shown (error s))
                  (if str_truthy (successMessage s) then Some (successMessage s) else None)
                  (url s)
                  (if isSubmittingURL s then ‹"Submitting..."› else ‹"Submit"›)
                  (isSubmittingURL s)
                  (selectedCategory s)
                  (all_option :: map category_option cs)
                  b)
      end
  end.

(** The values the category selector offers, i.e. the values
    [handleCategoryChange] can receive. *)
Definition option_values (s : state) : list jsstring :=
  match categories s with
  | PArray cs => [] :: map (fun c => number_to_string (c_id c)) cs
  | PNotArray => []
  end.

(** ** Sample data for the examples *)

Definition sample_category (n : Z) : category := mkCategory n ‹"Category"›.
Definition sample_product (n cat : Z) (d : jsstring) : product :=
  mkProduct n ‹"Product"› d (JNum 100) (JNum cat) JNull.
Definition sized_product : product :=
  mkProduct 7 ‹"Shirt"› ‹"Cotton"› (JStr ‹"499.00"›) (JNum 3) (JStr ‹" S, M ,L"›).
Definition sample_state : state :=
  mkState [] (PArray [sized_product]) (PArray [sample_category 3]) [] false None [] false.

(** ** Lemmas and properties *)

Lemma length_ellipsis : length ‹"..."› = 3.
Proof. reflexivity. Qed.

Lemma truncate_short (s : jsstring) (limit : Z) :
  (js_length s <= limit)%Z -> truncateDescription s limit = s.
Proof. intros H. unfold truncateDescription. destruct (Z.gtb_spec (js_length s) limit); [lia | done]. Qed.

Lemma truncate_long (s : jsstring) (limit : Z) :
  (0 <= limit < js_length s)%Z ->
  truncateDescription s limit = take (Z.to_nat limit) s ++ ‹"..."›.
Proof.
  intros H. unfold truncateDescription.
  destruct (Z.gtb_spec (js_length s) limit); [|lia]. by rewrite slice_prefix by lia.
Qed.

(** C15: truncateDescription: identity up to the limit, prefix of limit code units plus "..." beyond, and never longer than limit + 3. *)
Theorem truncateDescription_spec (s : jsstring) (limit : Z) :
  (0 <= limit)%Z ->
  (length s <= Z.to_nat limit -> truncateDescription s limit = s) /\
  (Z.to_nat limit < length s ->
     truncateDescription s limit = take (Z.to_nat limit) s ++ ‹"..."› /\
     length (truncateDescription s limit) = Z.to_nat limit + 3).
Proof.
  intros Hl. unfold js_length in *. split; intros H.
  - apply truncate_short. unfold js_length. lia.
  - rewrite truncate_long by (unfold js_length; lia). split; [done|].
    rewrite length_app, length_take, length_ellipsis. lia.
Qed.

(** What a card shows of its description, and its toggle. *)
Lemma render_card_inv (e : bool) (p : product) (c : card) :
  render_card e p = Some c ->
  card_text c = (if e then description p
                 else truncateDescription (description p) description_limit) /\
  card_toggle c = (if (js_length (description p) >? 200)%Z
                   then Some (if e then ‹"Show less"› else ‹"Read more"›) else None).
Proof. unfold render_card. destruct (render_sizes (size p)); [|done]. by intros [= <-]. Qed.

(** C14: a collapsed card of a long description shows its first 200 code units, "..." and "Read more";
    a short one shows the description and no toggle; an expanded card shows it whole. *)
Theorem render_card_description (e : bool) (p : product) (c : card) :
  render_card e p = Some c ->
  (length (description p) <= 200 ->
     card_text c = description p /\ card_toggle c = None) /\
  (200 < length (description p) ->
     card_text c = (if e then description p else take 200 (description p) ++ ‹"..."›) /\
     card_toggle c = Some (if e then ‹"Show less"› else ‹"Read more"›)).
Proof.
  intros [-> ->]%render_card_inv. unfold js_length. split; intros H.
  - destruct (Z.gtb_spec (Z.of_nat (length (description p))) 200); [lia|].
    destruct e; [done|]. rewrite truncate_short; [done | unfold js_length, description_limit; lia].
  - destruct (Z.gtb_spec (Z.of_nat (length (description p))) 200); [|lia].
    destruct e; [done|]. rewrite truncate_long; [done | unfold js_length, description_limit; lia].
Qed.

(** C16: the size buttons: one per comma-separated piece, each trimmed, and the pieces joined by commas give the size back. *)
Theorem render_sizes_buttons (s : jsstring) (labels : list jsstring) :
  render_sizes (JStr s) = Some (SizeButtons labels) ->
  length labels = S (count_occ N.eq_dec s comma) /\
  (exists pieces, labels = map trim pieces /\ join comma pieces = s) /\
  Forall (fun w => forall c r, (w = c :: r \/ w = r ++ [c]) -> is_js_space c = false) labels.
Proof.
  simpl. destruct (str_truthy s); [|done]. destruct (str_truthy (trim s)); [|done].
  intros [= <-]. split; [by rewrite length_map, length_split|].
  split; [eauto using join_split|].
  apply Forall_map, Forall_forall. intros x _ c r [H|H]; eauto with js.
Qed.

Lemma render_Some (s : state) (pg : page) :
  render s = Some pg ->
  exists cs, categories s = PArray cs /\
    render_body (showFullDescription s) (products s) = Some (pg_body pg) /\
    pg_options pg = all_option :: map category_option cs /\
    pg_error pg = shown (error s) /\
    pg_button_disabled pg = isSubmittingURL s.
Proof.
  unfold render. destruct (categories s) as [cs|]; [|done].
  destruct (render_body _ _) as [b|]; [|done]. intros [= <-]. by exists cs.
Qed.

(** The submit button of a rendered page follows the submitting flag. *)
Lemma render_button (s : state) (pg : page) :
  render s = Some pg ->
  pg_button_disabled pg = isSubmittingURL s /\
  pg_button_label pg = if isSubmittingURL s then ‹"Submitting..."› else ‹"Submit"›.
Proof.
  unfold render. destruct (categories s) as [cs|]; [|done].
  destruct (render_body _ _) as [b|]; [|done]. by intros [= <-].
Qed.

Lemma render_body_cards (e : bool) (p : product) (ps : list product) :
  render_body e (PArray (p :: ps)) = Cards <$> mapM (render_card e) (p :: ps).
Proof. reflexivity. Qed.

(** [product.size.trim()] throws exactly on a nonzero number and on
    [true]: the truthy values that are not strings. *)
Lemma render_sizes_None (v : jsval) :
  render_sizes v = None <-> (exists z, v = JNum z /\ z <> 0%Z) \/ v = JBool true.
Proof.
  destruct v as [z|t|[]|]; simpl.
  - destruct (Z.eqb_spec z 0) as [->|Hz]; [|naive_solver].
    split; [done|]. intros [(? & [= <-] & ?)|]; done.
  - split; [by destruct (str_truthy t), (str_truthy (trim t))|].
    by intros [(? & ? & _)|?].
  - split; [by right | done].
  - split; [done | by intros [(? & ? & _)|?]].
  - split; [done | by intros [(? & ? & _)|?]].
Qed.

Lemma render_card_None_size (e : bool) (p : product) :
  render_card e p = None <-> render_sizes (size p) = None.
Proof. unfold render_card. by destruct (render_sizes (size p)). Qed.

(** C12: the page shows the placeholder exactly when [products] is not an array or is empty. *)
Theorem render_placeholder (s : state) (pg : page) :
  render s = Some pg ->
  (pg_body pg = Placeholder <-> products s = PNotArray \/ products s = PArray []).
Proof.
  intros (cs & _ & Hb & _)%render_Some. revert Hb.
  destruct (products s) as [[|p ps]|]; intros Hb.
  - injection Hb as <-. tauto.
  - rewrite render_body_cards in Hb. destruct (mapM _ _); [|done]. injection Hb as <-.
    split; [done|]. intros [H|H]; discriminate.
  - injection Hb as <-. tauto.
Qed.

(** C17: a nonempty product array renders one card per product, in the array's order. *)
Theorem render_cards (s : state) (pg : page) (ps : list product) :
  render s = Some pg -> products s = PArray ps -> ps <> [] ->
  exists cs, pg_body pg = Cards cs /\
    Forall2 (fun p c => render_card (showFullDescription s) p = Some c) ps cs.
Proof.
  intros (cs & _ & Hb & _)%render_Some Hp Hne. rewrite Hp in Hb.
  destruct ps as [|p ps]; [done|]. rewrite render_body_cards in Hb.
  destruct (mapM _ (p :: ps)) as [k|] eqn:Hm; [|done].
  injection Hb as <-. exists k. split; [done|]. by apply mapM_Some_1.
Qed.
(*
*)

(** C13: the render throws exactly when [categories] is not an array or a displayed product's [size] is a truthy value without [trim]: a nonzero number or [true]. *)
Theorem render_crash (s : state) :
  render s = None <->
  categories s = PNotArray \/
  (exists ps p, products s = PArray ps /\ p ∈ ps /\
     ((exists z, size p = JNum z /\ z <> 0%Z) \/ size p = JBool true)).
Proof.
  unfold render. destruct (categories s) as [cs|]; [|tauto].
  destruct (products s) as [[|q ps]|] eqn:Hp.
  - split; [done|]. intros [?|(? & ? & [=<-] & Hin & _)]; [done|]. by apply elem_of_nil in Hin.
  - rewrite render_body_cards.
    destruct (mapM (render_card (showFullDescription s)) (q :: ps)) as [k|] eqn:Hm; simpl.
    + split; [done|]. intros [?|(l & p & Hl & Hin & Hsz)]; [done|].
      injection Hl as <-. apply render_sizes_None, (render_card_None_size (showFullDescription s)) in Hsz.
      assert (Hs : is_Some (mapM (render_card (showFullDescription s)) (q :: ps))) by eauto.
      apply mapM_is_Some_1 in Hs. rewrite list.Forall_forall in Hs. destruct (Hs p Hin) as [? Hc].
      simpl in Hc. congruence.
    + split; [intros _; right|done].
      apply mapM_None_1, Exists_exists in Hm as (p & Hin & Hn).
      exists (q :: ps), p. split_and!; [done | by apply list_elem_of_In |].
      by apply render_sizes_None, (render_card_None_size (showFullDescription s)).
  - split; [done|]. intros [?|(? & ? & ? & _)]; congruence.
Qed.

(** C34: the options a rendered page offers are the values the selector can send: the empty value of All Categories first, then the printed id of each category, in the order of the categories array; their labels are All Categories and the categories' names. *)
Theorem render_options (s : state) (pg : page) (cs : list category) :
  render s = Some pg -> categories s = PArray cs ->
  map fst (pg_options pg) = option_values s /\
  map snd (pg_options pg) = ‹"All Categories"› :: map c_name cs.
Proof.
  intros Hr Hcs. destruct (render_Some _ _ Hr) as (cs' & Hc & _ & Ho & _).
  rewrite Hcs in Hc. injection Hc as <-.
  unfold option_values. rewrite Hcs, Ho. simpl. by rewrite !map_map.
Qed.

(** ** Witnesses *)

Lemma truncateDescription_spec_witness :
  (0 <= 5)%Z /\ truncateDescription ‹"Cotton shirt"› 5 = ‹"Cotto..."› /\
  length (truncateDescription ‹"Cotton shirt"› 5) = 8.
Proof.
  assert (H0 : (0 <= 5)%Z) by lia.
  destruct (truncateDescription_spec ‹"Cotton shirt"› 5 H0) as [_ Hl].
  destruct (Hl ltac:(simpl; lia)) as [Ht Hn].
  split; [exact H0|]. split; [rewrite Ht; reflexivity | rewrite Hn; reflexivity].
Defined.

Lemma render_card_description_witness :
  exists c, render_card false (sample_product 2 5 (repeat 97%N 250)) = Some c /\
    card_toggle c = Some ‹"Read more"›.
Proof.
  destruct (render_card false (sample_product 2 5 (repeat 97%N 250))) as [c|] eqn:H;
    [|vm_compute in H; discriminate].
  exists c. split; [reflexivity|].
  destruct (render_card_description false _ c H) as [_ Hl].
  destruct (Hl ltac:(simpl; lia)) as [_ Ht]. exact Ht.
Defined.

Lemma render_sizes_buttons_witness :
  render_sizes (JStr ‹" S, M ,L"›) = Some (SizeButtons [‹"S"›; ‹"M"›; ‹"L"›]) /\
  length [‹"S"›; ‹"M"›; ‹"L"›] = S (count_occ N.eq_dec ‹" S, M ,L"› comma).
Proof.
  assert (H : render_sizes (JStr ‹" S, M ,L"›) = Some (SizeButtons [‹"S"›; ‹"M"›; ‹"L"›]))
    by (vm_compute; reflexivity).
  split; [exact H|]. exact (proj1 (render_sizes_buttons _ _ H)).
Defined.

Lemma render_placeholder_witness :
  exists pg, render (mkState [] (PArray []) (PArray []) [] false None [] false) = Some pg /\
    pg_body pg = Placeholder.
Proof.
  destruct (render (mkState [] (PArray []) (PArray []) [] false None [] false)) as [pg|] eqn:H;
    [|discriminate].
  exists pg. split; [reflexivity|].
  apply (proj2 (render_placeholder _ pg H)). right. reflexivity.
Defined.

Lemma render_cards_witness :
  exists pg cs, render sample_state = Some pg /\ pg_body pg = Cards cs /\ length cs = 1.
Proof.
  destruct (render sample_state) as [pg|] eqn:H; [|vm_compute in H; discriminate].
  destruct (render_cards sample_state pg [sized_product] H eq_refl ltac:(discriminate))
    as (cs & Hb & Hf).
  exists pg, cs. split; [reflexivity|]. split; [exact Hb|].
  by rewrite <- (Forall2_length Hf).
Defined.


Lemma render_options_witness :
  exists pg, render sample_state = Some pg /\
    map fst (pg_options pg) = [[]; ‹"3"›] /\
    map snd (pg_options pg) = [‹"All Categories"›; ‹"Category"›].
Proof.
  destruct (render sample_state) as [pg|] eqn:H; [|vm_compute in H; discriminate].
  exists pg. split; [reflexivity|].
  exact (render_options sample_state pg [sample_category 3] H eq_refl).
Defined.

End Render.
