(* ===== verification/View.v ===== *)
(** * The handlers of [Product] and their interleaving
    ([src/src/component/Product.tsx], lines 4-68)

    A world is the component's state, the handlers suspended at an
    [await] (the requests in flight, each with the continuation it will
    run) and the log of the requests sent.  Each handler is a function on
    worlds that runs up to its first [await]; each reply resumes one
    suspended handler.  [step] is the executable transition function of
    the page: user events (guarded by what the rendered, mounted page
    offers), unmounting, and replies (to any request in flight, in any
    order, also after unmounting, when the setters do nothing).  The section is
    parameterised by an [ApiClient]: the theorems use only its
    [ApiClientSpec]. *)

From S2P Require Import Prelude JsString Client Render.
Import JsString Render.

Module View.

(** ** React's state setters *)

Definition setUrl (v : jsstring) (s : state) : state :=
  mkState v (products s) (categories s) (selectedCategory s)
    (isSubmittingURL s) (error s) (successMessage s) (showFullDescription s).
Definition setProducts (v : payload product) (s : state) : state :=
  mkState (url s) v (categories s) (selectedCategory s)
    (isSubmittingURL s) (error s) (successMessage s) (showFullDescription s).
Definition setCategories (v : payload category) (s : state) : state :=
  mkState (url s) (products s) v (selectedCategory s)
    (isSubmittingURL s) (error s) (successMessage s) (showFullDescription s).
Definition setSelectedCategory (v : jsstring) (s : state) : state :=
  mkState (url s) (products s) (categories s) v
    (isSubmittingURL s) (error s) (successMessage s) (showFullDescription s).
Definition setIsSubmittingURL (v : bool) (s : state) : state :=
  mkState (url s) (products s) (categories s) (selectedCategory s)
    v (error s) (successMessage s) (showFullDescription s).
Definition setError (v : option jsstring) (s : state) : state :=
  mkState (url s) (products s) (categories s) (selectedCategory s)
    (isSubmittingURL s) v (successMessage s) (showFullDescription s).
Definition setSuccessMessage (v : jsstring) (s : state) : state :=
  mkState (url s) (products s) (categories s) (selectedCategory s)
    (isSubmittingURL s) (error s) v (showFullDescription s).
Definition setShowFullDescription (v : bool) (s : state) : state :=
  mkState (url s) (products s) (categories s) (selectedCategory s)
    (isSubmittingURL s) (error s) (successMessage s) v.

(** ** Worlds *)

(** A handler suspended at an [await], with what it captured. *)
Inductive pending :=
| PendProducts (categoryId : jsstring)  (** [getProducts(categoryId)] at [await fetchProducts()] *)
| PendCategories                       (** [getCategories()] at [await fetchCategories()] *)
| PendSubmit (submitted : jsstring).    (** [handleURLSubmit] at [await submitProductURL(url)] *)

#[export] Instance pending_eq_dec : EqDecision pending.
Proof. solve_decision. Defined.

Record world := mkWorld {
  st : state;
  inflight : list pending;
  sent : list request;
  mounted : bool
}.

Definition with_state (s : state) (w : world) : world :=
  mkWorld s (inflight w) (sent w) (mounted w).

(** A state update through React's setters: it takes effect while the
    component is mounted and does nothing once it is unmounted. *)
Definition update (f : state -> state) (w : world) : world :=
  if mounted w then with_state (f (st w)) w else w.

(** Start a client call: send its request, suspend the handler.  The
    request goes out whether or not the component is still mounted. *)
Definition issue {A} (c : call A) (k : pending) (w : world) : world :=
  mkWorld (st w) (inflight w ++ [k]) (sent w ++ [call_request c]) (mounted w).

(** The page is torn down; nothing cancels the requests in flight. *)
Definition unmount (w : world) : world :=
  mkWorld (st w) (inflight w) (sent w) false.

(** The message of the [TypeError] thrown by [fetchedProducts.filter]
    when the products payload is not an array. *)
Definition filter_type_error : jsstring := ‹"fetchedProducts.filter is not a function"›.

Definition url_required : jsstring := ‹"URL is required"›.
Definition submitted_ok : jsstring := ‹"Product submitted successfully!"›.

Section Handlers.
Context `{ApiClient}.

(** [product.category_id === Number(categoryId)] *)
Definition in_category (categoryId : jsstring) (p : product) : bool :=
  strict_eq_num (category_id p) (to_number categoryId).

(** [getProducts(categoryId)], up to its [await] (lines 13-15). *)
Definition getProducts (categoryId : jsstring) (w : world) : world :=
  issue api_products (PendProducts categoryId) w.

(** [getProducts(categoryId)], after its [await] (lines 15-25). *)
Definition getProducts_resume (categoryId : jsstring)
    (r : result (payload product)) (s : state) : state :=
  match r with
  | Rejected m => setError (Some m) s
  | Resolved fetched =>
      if str_truthy categoryId then
        match fetched with
        | PArray l => setProducts (PArray (List.filter (in_category categoryId) l)) s
        | PNotArray => setError (Some filter_type_error) s
        end
      else setProducts fetched s
  end.

(** [getCategories()], up to its [await] and after it (lines 27-34). *)
Definition getCategories (w : world) : world :=
  issue api_categories PendCategories w.

Definition getCategories_resume (r : result (payload category)) (s : state) : state :=
  match r with
  | Rejected m => setError (Some m) s
  | Resolved fetched => setCategories fetched s
  end.

(** [handleURLSubmit], up to its [await] (lines 35-46). *)
Definition handleURLSubmit (w : world) : world :=
  if negb (str_truthy (url (st w))) then update (setError (Some url_required)) w
  else
    let w1 := update (fun s => setError None (setIsSubmittingURL true s)) w in
    issue (api_submit (url (st w))) (PendSubmit (url (st w))) w1.

(** [handleURLSubmit], after its [await]: the rest of the [try], the
    [catch] and the [finally] (lines 46-54).  [getProducts()] is not
    awaited: it sends its request and the [finally] runs at once. *)
Definition handleURLSubmit_resume (r : result unit) (w : world) : world :=
  match r with
  | Resolved _ =>
      let w1 := update (fun s => setUrl [] (setSuccessMessage submitted_ok s)) w in
      let w2 := getProducts [] w1 in
      update (setIsSubmittingURL false) w2
  | Rejected m =>
      update (fun s => setIsSubmittingURL false (setError (Some m) s)) w
  end.

(** [handleCategoryChange] (lines 56-60). *)
Definition handleCategoryChange (categoryId : jsstring) (w : world) : world :=
  getProducts categoryId (update (setSelectedCategory categoryId) w).

(** The mount effect (lines 62-65). *)
Definition mount (w : world) : world := getProducts [] (getCategories w).

(** [toggleDescription] (lines 66-68). *)
Definition toggleDescription (w : world) : world :=
  update (fun s => setShowFullDescription (negb (showFullDescription s)) s) w.

(** The URL input's [onChange] (line 89). *)
Definition onUrlChange (v : jsstring) (w : world) : world := update (setUrl v) w.

(** ** Replies and events *)

(** What the network answers to a request. *)
Inductive reply :=
| RProducts (o : axios_outcome (payload product))
| RCategories (o : axios_outcome (payload category))
| RSubmit (o : axios_outcome unit).

(** Resume a suspended handler with the reply to its request. *)
Definition resume (k : pending) (rp : reply) (w : world) : option world :=
  match k, rp with
  | PendProducts c, RProducts o =>
      Some (update (getProducts_resume c (call_finish api_products o)) w)
  | PendCategories, RCategories o =>
      Some (update (getCategories_resume (call_finish api_categories o)) w)
  | PendSubmit u, RSubmit o =>
      Some (handleURLSubmit_resume (call_finish (api_submit u) o) w)
  | _, _ => None
  end.

Inductive event :=
| TypeURL (v : jsstring)
| SubmitForm
| SelectCategory (v : jsstring)
| ClickToggle
| Unmount
| Reply (i : nat) (rp : reply).

(** The cards of the page show a toggle button. *)
Definition has_toggle (s : state) : bool :=
  match products s with
  | PArray l => existsb (fun p => (js_length (description p) >? 200)%Z) l
  | PNotArray => false
  end.

(** The page renders, so that it can receive user events. *)
Definition renders (s : state) : bool :=
  match render s with Some _ => true | None => false end.

(** The page is mounted and shows its controls. *)
Definition live (w : world) : bool := mounted w && renders (st w).

(** One transition.  A user event needs a mounted, rendered page and
    the control it uses: the submit button is disabled while submitting
    and the [required] input blocks an empty form; the selector offers
    only its options; the toggle exists only on a long description.  The
    page may be unmounted at any time.  A reply answers the [i]-th
    request in flight, mounted or not. *)
Definition step (w : world) (e : event) : option world :=
  match e with
  | TypeURL v => if live w then Some (onUrlChange v w) else None
  | SubmitForm =>
      if live w && negb (isSubmittingURL (st w)) && str_truthy (url (st w))
      then Some (handleURLSubmit w) else None
  | SelectCategory v =>
      if live w && bool_decide (v ∈ option_values (st w))
      then Some (handleCategoryChange v w) else None
  | ClickToggle =>
      if live w && has_toggle (st w) then Some (toggleDescription w) else None
  | Unmount => if mounted w then Some (unmount w) else None
  | Reply i rp =>
      match inflight w !! i with
      | Some k => resume k rp (mkWorld (st w) (delete i (inflight w)) (sent w) (mounted w))
      | None => None
      end
  end.

Fixpoint run (w : world) (es : list event) : option world :=
  match es with
  | [] => Some w
  | e :: rest => match step w e with Some w' => run w' rest | None => None end
  end.

(** The world after the first render and the mount effect. *)
Definition init_world : world := mount (mkWorld initial_state [] [] true).

(** The requests the page may send: the two list fetches and the
    submission of a nonempty URL. *)
Definition allowed_request (r : request) : Prop :=
  r = call_request api_products \/ r = call_request api_categories \/
  exists u, str_truthy u = true /\ r = call_request (api_submit u).

(** The messages the client's failures carry. *)
Definition client_message (m : jsstring) : Prop :=
  (exists u e, call_finish (api_submit u) (AxiosError e) = Rejected m) \/
  (exists e, call_finish api_products (AxiosError e) = Rejected m) \/
  (exists e, call_finish api_categories (AxiosError e) = Rejected m).

(** The values of the [error] slot ([useState(null)], line 10, written
    by the [setError] calls of lines 24, 32, 39, 45 and 51): [null], the
    local validation message, the TypeError that [filter] throws on a
    non-array, or a message of the client. *)
Definition error_typed (e : option jsstring) : Prop :=
  match e with
  | None => True
  | Some m => m = url_required \/ m = filter_type_error \/ client_message m
  end.

Inductive reachable : world -> Prop :=
| reach_init : reachable init_world
| reach_step w e w' : reachable w -> step w e = Some w' -> reachable w'.

End Handlers.

(** A reply that reports a failed request. *)
Definition reply_failed (rp : reply) : bool :=
  match rp with
  | RProducts (AxiosError _) | RCategories (AxiosError _) | RSubmit (AxiosError _) => true
  | _ => false
  end.

(** The number of submissions in flight. *)
Definition is_submit (k : pending) : bool := match k with PendSubmit _ => true | _ => false end.
Fixpoint submits (l : list pending) : nat :=
  match l with
  | [] => 0
  | k :: l => (if is_submit k then 1 else 0) + submits l
  end.


(** ** Sample data for the examples *)

Definition sample_world : world :=
  mkWorld (setCategories (PArray [sample_category 3; sample_category 5]) initial_state) [] [] true.

Definition long_text : jsstring := repeat 97%N 250.
Definition sample_products : list product :=
  [sample_product 1 3 ‹"Short"›; sample_product 2 5 long_text;
   sample_product 3 3 ‹"Also short"›].
Definition sample_url : jsstring := ‹"https://shop.example/item/42"›.

(** The replies to both mount requests, and the page once they are in. *)
Definition loaded_trace : list event :=
  [Reply 0 (RCategories (AxiosOk (PArray [sample_category 3; sample_category 5])));
   Reply 0 (RProducts (AxiosOk (PArray sample_products)))].

Definition loaded_world : world := default init_world (run init_world loaded_trace).

(** A product whose category_id the backend sent as a string. *)
Definition sample_string_product : product :=
  mkProduct 9 ‹"Mug"› ‹"Ceramic"› (JNum 250) (JStr ‹"3"›) JNull.

(** The same page while a URL submission is in flight. *)
Definition submitting_world : world :=
  default init_world (run loaded_world [TypeURL sample_url; SubmitForm]).

(** The same page while the products of category 3 are being fetched. *)
Definition selecting_world : world :=
  default init_world (run loaded_world [SelectCategory ‹"3"›]).

(** The submitting page, unmounted before the submission is answered. *)
Definition unmounted_world : world :=
  default init_world (run submitting_world [Unmount]).

(** While the page is mounted, the submitting flag is set exactly when
    one submission is in flight. *)
Definition submit_inv (w : world) : Prop :=
  mounted w = true -> submits (inflight w) = if isSubmittingURL (st w) then 1 else 0.

(** Reduce the setters of a mounted world [Hm : mounted w = true]. *)
Ltac mounted_simpl Hm :=
  unfold onUrlChange, handleCategoryChange, toggleDescription,
    handleURLSubmit_resume, getProducts, getCategories, issue, update;
  repeat progress (simpl; rewrite ?Hm).

(** Open the guard of a user event: the step goes through only on a
    live page, so its setters take effect; [Hm] records that the page
    is mounted and [G] the rest of the guard. *)
Ltac user_guard Hm G :=
  case_if G; [|done]; intros [= <-];
  repeat rewrite andb_true_iff in G;
  lazymatch type of G with
  | context [live ?w = true] =>
      assert (Hm : mounted w = true) by (unfold live in G; rewrite ?andb_true_iff in G; tauto)
  end;
  unfold onUrlChange, handleURLSubmit, handleCategoryChange, toggleDescription, update;
  mounted_simpl Hm.

(** ** Properties *)

Lemma submits_app (l k : list pending) : submits (l ++ k) = submits l + submits k.
Proof. induction l as [|x l IH]; simpl; lia. Qed.

Lemma submits_delete (l : list pending) i k :
  l !! i = Some k -> submits l = submits (delete i l) + (if is_submit k then 1 else 0).
Proof.
  revert i. induction l as [|x l IH]; intros [|i] Hi; simpl in *; try done.
  - injection Hi as ->. lia.
  - specialize (IH i Hi). lia.
Qed.

Section Props.
Context `{Hspec : ApiClientSpec}.

Lemma run_reachable (w w' : world) (es : list event) :
  reachable w -> run w es = Some w' -> reachable w'.
Proof.
  revert w. induction es as [|e es IH]; intros w Hw; simpl; [by intros [= <-]|].
  destruct (step w e) as [w1|] eqn:Hs; [|done]. apply IH. by apply reach_step with w e.
Qed.

Lemma step_reply (w : world) i rp k :
  inflight w !! i = Some k ->
  step w (Reply i rp) = resume k rp (mkWorld (st w) (delete i (inflight w)) (sent w) (mounted w)).
Proof. intros Hk. simpl. by rewrite Hk. Qed.

(** What a step did, by event: the inversion of [step]. *)
Lemma step_inv (w w' : world) (e : event) :
  step w e = Some w' ->
  match e with
  | TypeURL v => live w = true /\ w' = onUrlChange v w
  | SubmitForm => live w = true /\ str_truthy (url (st w)) = true /\ w' = handleURLSubmit w
  | SelectCategory v => live w = true /\ w' = handleCategoryChange v w
  | ClickToggle => live w = true /\ w' = toggleDescription w
  | Unmount => mounted w = true /\ w' = unmount w
  | Reply i rp => exists k, inflight w !! i = Some k /\
      resume k rp (mkWorld (st w) (delete i (inflight w)) (sent w) (mounted w)) = Some w'
  end.
Proof.
  destruct e as [v| |v| | |i rp]; simpl.
  6: destruct (inflight w !! i); [eauto | done].
  all: case_if G; [|done]; intros [= <-]; rewrite ?andb_true_iff in G; tauto.
Qed.

(** Which continuation a reply resumed. *)
Lemma resume_inv (k : pending) (rp : reply) (w w' : world) :
  resume k rp w = Some w' ->
  (exists c o, k = PendProducts c /\ rp = RProducts o /\
     w' = update (getProducts_resume c (call_finish api_products o)) w) \/
  (exists o, k = PendCategories /\ rp = RCategories o /\
     w' = update (getCategories_resume (call_finish api_categories o)) w) \/
  (exists u o, k = PendSubmit u /\ rp = RSubmit o /\
     w' = handleURLSubmit_resume (call_finish (api_submit u) o) w).
Proof. destruct k, rp; simpl; try done; intros [= <-]; eauto 10. Qed.

(** C5: an empty URL on a mounted page: handleURLSubmit sends nothing, suspends nothing, and only sets the error to "URL is required". *)
Theorem handleURLSubmit_empty (w : world) :
  mounted w = true -> url (st w) = [] ->
  inflight (handleURLSubmit w) = inflight w /\ sent (handleURLSubmit w) = sent w /\
  st (handleURLSubmit w) = setError (Some url_required) (st w).
Proof. intros Hm Hu. unfold handleURLSubmit. rewrite Hu. by mounted_simpl Hm. Qed.

(** Whether the page renders depends only on the two lists and the
    expansion flag. *)
Lemma renders_lists (s s' : state) :
  products s' = products s -> categories s' = categories s ->
  showFullDescription s' = showFullDescription s -> renders s' = renders s.
Proof.
  intros Hp Hc Hx. unfold renders, render. rewrite Hp, Hc, Hx.
  destruct (categories s); [|done]. by destruct (render_body _ _).
Qed.

(** C30: error handling (spec section 7): a failed reply to any request leaves the loaded products and categories in place, and the page renders after it exactly when it rendered before: a failure neither loses data nor crashes the view. *)
Theorem failure_keeps_page (w w' : world) (i : nat) (rp : reply) :
  reply_failed rp = true -> step w (Reply i rp) = Some w' ->
  products (st w') = products (st w) /\ categories (st w') = categories (st w) /\
  renders (st w') = renders (st w).
Proof.
  intros Hf Hs. apply step_inv in Hs as (k & _ & Hr).
  enough (Hl : products (st w') = products (st w) /\ categories (st w') = categories (st w) /\
                 showFullDescription (st w') = showFullDescription (st w)).
  { destruct Hl as (Hp & Hc & Hx). split_and!; [done | done | by apply renders_lists]. }
  apply resume_inv in Hr as [(c & o & -> & -> & ->)|[(o & -> & -> & ->)|(u & o & -> & -> & ->)]];
    destruct o; try done; destruct (mounted w) eqn:Hm; mounted_simpl Hm; try done.
  - destruct products_fails as (m & Hf' & _). by rewrite Hf'.
  - destruct categories_fails as (m & Hf' & _). by rewrite Hf'.
  - destruct (submit_fails u) as (m & Hf' & _). by rewrite Hf'.
  - destruct (submit_fails u) as (m & Hf' & _). by rewrite Hf'.
Qed.

(** C3: on a mounted page, a successful submission reply clears the input, shows the success message, clears the flag and sends exactly one unfiltered product reload. *)
Theorem submit_success (w w' : world) (i : nat) (u : jsstring) (d : unit) :
  mounted w = true -> inflight w !! i = Some (PendSubmit u) ->
  step w (Reply i (RSubmit (AxiosOk d))) = Some w' ->
  url (st w') = [] /\ successMessage (st w') = submitted_ok /\
  isSubmittingURL (st w') = false /\ error (st w') = error (st w) /\
  products (st w') = products (st w) /\ selectedCategory (st w') = selectedCategory (st w) /\
  inflight w' = delete i (inflight w) ++ [PendProducts []] /\
  sent w' = sent w ++ [call_request api_products].
Proof.
  intros Hm Hk. rewrite (step_reply _ _ _ _ Hk). simpl.
  rewrite (submit_passes u d). mounted_simpl Hm. intros [= <-]. done.
Qed.

(** C4: on a mounted page, a failed submission reply keeps the input, shows the client's error message, clears the flag and sends nothing. *)
Theorem submit_failure (w w' : world) (i : nat) (u : jsstring) (e : axios_error) :
  mounted w = true -> inflight w !! i = Some (PendSubmit u) ->
  step w (Reply i (RSubmit (AxiosError e))) = Some w' ->
  exists m, call_finish (api_submit u) (AxiosError e) = Rejected m /\
  url (st w') = url (st w) /\ error (st w') = Some m /\
  isSubmittingURL (st w') = false /\ products (st w') = products (st w) /\
  inflight w' = delete i (inflight w) /\ sent w' = sent w.
Proof.
  intros Hm Hk. rewrite (step_reply _ _ _ _ Hk). simpl.
  destruct (submit_fails u) as (m & Hf & _). rewrite Hf. mounted_simpl Hm.
  intros [= <-]. by exists m.
Qed.

Lemma getProducts_resume_flag c r (s : state) :
  isSubmittingURL (getProducts_resume c r s) = isSubmittingURL s.
Proof. unfold getProducts_resume. by repeat case_match. Qed.

Lemma getCategories_resume_flag r (s : state) :
  isSubmittingURL (getCategories_resume r s) = isSubmittingURL s.
Proof. unfold getCategories_resume. by case_match. Qed.

Lemma handleURLSubmit_resume_flag r (w : world) :
  mounted w = true ->
  isSubmittingURL (st (handleURLSubmit_resume r w)) = false /\
  submits (inflight (handleURLSubmit_resume r w)) = submits (inflight w).
Proof. intros Hm. destruct r; mounted_simpl Hm; rewrite ?submits_app; simpl; split; lia. Qed.

(** Once unmounted, a step keeps the page unmounted and its state unchanged. *)
Lemma step_mounted_false (w w' : world) (e : event) :
  mounted w = false -> step w e = Some w' -> mounted w' = false /\ st w' = st w.
Proof.
  intros Hm. destruct e as [v| |v| | |i rp]; simpl; unfold live; rewrite ?Hm; simpl; try done.
  destruct (inflight w !! i) as [k|]; [|done].
  destruct k as [c| |u], rp as [o|o|o]; simpl; try done;
    [| |destruct (call_finish (api_submit u) o)]; mounted_simpl Hm; by intros [= <-].
Qed.

(** A rejection of a call that passes data through is its failure's. *)
Lemma rejected_failure {A} (c : call A) (o : axios_outcome A) (m : jsstring) :
  passes_data c -> call_finish c o = Rejected m -> exists e, call_finish c (AxiosError e) = Rejected m.
Proof. intros Hp. destruct o as [d|e]; [by rewrite Hp | eauto]. Qed.

Lemma step_error_typed (w w' : world) (e : event) :
  error_typed (error (st w)) -> step w e = Some w' -> error_typed (error (st w')).
Proof.
  intros He Hs. destruct (mounted w) eqn:Hm.
  2:{ by destruct (step_mounted_false _ _ _ Hm Hs) as [_ ->]. }
  apply step_inv in Hs. destruct e as [v| |v| | |i rp].
  - destruct Hs as [_ ->]. by mounted_simpl Hm.
  - destruct Hs as (_ & Hu & ->). unfold handleURLSubmit. rewrite ?Hu. by mounted_simpl Hm.
  - destruct Hs as [_ ->]. by mounted_simpl Hm.
  - destruct Hs as [_ ->]. by mounted_simpl Hm.
  - by destruct Hs as [_ ->].
  - destruct Hs as (k & _ & Hr).
    apply resume_inv in Hr as [(c & o & -> & -> & ->)|[(o & -> & -> & ->)|(u & o & -> & -> & ->)]];
      mounted_simpl Hm.
    + unfold getProducts_resume. destruct (call_finish api_products o) as [d|m] eqn:Ho.
      * destruct (str_truthy c), d; simpl; auto.
      * simpl. right; right; right; left. eapply rejected_failure; [apply products_passes | exact Ho].
    + unfold getCategories_resume. destruct (call_finish api_categories o) as [d|m] eqn:Ho; simpl; [done|].
      right; right; right; right. eapply rejected_failure; [apply categories_passes | exact Ho].
    + destruct (call_finish (api_submit u) o) as [d|m] eqn:Ho; mounted_simpl Hm; [done|].
      right; right; left. exists u. eapply rejected_failure; [apply submit_passes | exact Ho].
Qed.

(** C28: the type of the error slot: in every reachable world it holds null, "URL is required", the TypeError of [filter] on a non-array, or a failure message of the client, and nothing else. *)
Theorem error_slot_typed (w : world) : reachable w -> error_typed (error (st w)).
Proof.
  induction 1 as [|w e w' _ IH Hs]; [done|].
  exact (step_error_typed w w' e IH Hs).
Qed.

Lemma step_submit_inv (w w' : world) (e : event) :
  submit_inv w -> step w e = Some w' -> submit_inv w'.
Proof.
  unfold submit_inv. intros Hinv Hs Hm'. destruct (mounted w) eqn:Hm0.
  2:{ destruct (step_mounted_false _ _ _ Hm0 Hs) as [Hf _]. congruence. }
  specialize (Hinv eq_refl). clear Hm'. revert Hs.
  destruct e as [v| |v| | |i rp]; simpl.
  - user_guard Hm G. exact Hinv.
  - user_guard Hm G. destruct G as [[_ Hf] Hu]. rewrite ?Hu. simpl.
    rewrite submits_app, Hinv. destruct (isSubmittingURL (st w)); [discriminate Hf | reflexivity].
  - user_guard Hm G. rewrite submits_app, Hinv. simpl. destruct (isSubmittingURL (st w)); lia.
  - user_guard Hm G. exact Hinv.
  - case_if G; [|done]. intros [= <-]. exact Hinv.
  - destruct (inflight w !! i) as [k|] eqn:Hk; [|done].
    rewrite (submits_delete _ _ _ Hk) in Hinv.
    destruct k as [c| |u], rp as [o|o|o]; simpl; try done; intros [= <-].
    + mounted_simpl Hm0. rewrite getProducts_resume_flag. simpl in Hinv. lia.
    + mounted_simpl Hm0. rewrite getCategories_resume_flag. simpl in Hinv. lia.
    + destruct (handleURLSubmit_resume_flag (call_finish (api_submit u) o)
                (mkWorld (st w) (delete i (inflight w)) (sent w) (mounted w)) Hm0) as [-> ->].
      simpl in *. destruct (isSubmittingURL (st w)); lia.
Qed.

(** C1: in every reachable world where the page is still mounted, exactly one submission is in flight while the submitting flag is set, and none otherwise. *)
Theorem submit_flag_invariant (w : world) :
  reachable w -> mounted w = true ->
  submits (inflight w) = if isSubmittingURL (st w) then 1 else 0.
Proof.
  induction 1 as [|w e w' _ IH Hs]; [reflexivity|].
  exact (step_submit_inv w w' e IH Hs).
Qed.

Lemma reachable_submit_inv (w : world) : reachable w -> submit_inv w.
Proof. induction 1 as [|w e w' _ IH Hs]; [by intros _ | exact (step_submit_inv w w' e IH Hs)]. Qed.

(** C25: in every reachable world where the page is mounted and renders, the submit button is disabled and reads "Submitting..." exactly when a URL submission is in flight, and is enabled and reads "Submit" when none is. *)
Theorem button_tracks_submission (w : world) (pg : page) :
  reachable w -> mounted w = true -> render (st w) = Some pg ->
  pg_button_disabled pg = bool_decide (submits (inflight w) = 1) /\
  pg_button_label pg =
    (if bool_decide (submits (inflight w) = 1) then ‹"Submitting..."› else ‹"Submit"›).
Proof.
  intros Hr Hm Hp. pose proof (reachable_submit_inv w Hr Hm) as Hinv.
  destruct (render_button _ _ Hp) as [-> ->]. rewrite Hinv.
  by destruct (isSubmittingURL (st w)).
Qed.

(** [Number(String(id))] matches exactly the products of category [id]. *)
Lemma in_category_id (z : Z) (p : product) :
  is_safe z = true ->
  in_category (number_to_string z) p = bool_decide (category_id p = JNum z).
Proof.
  intros Hs. unfold in_category. rewrite to_number_number_to_string by done.
  destruct (category_id p) as [z'| | |]; cbn [strict_eq_num].
  - destruct (Z.eqb_spec z' z) as [->|Hne]; [by rewrite bool_decide_true|].
    rewrite bool_decide_false; congruence.
  - by rewrite bool_decide_false.
  - by rewrite bool_decide_false.
  - by rewrite bool_decide_false.
Qed.

Lemma lookup_issued (l : list pending) k : (l ++ [k]) !! length l = Some k.
Proof. by rewrite lookup_app_r, Nat.sub_diag by lia. Qed.

(** C2: selecting a category's option and receiving a product array shows exactly the products of that category, in the order received. *)
Theorem select_category_filters (w w1 w2 : world) (c : category) (l : list product) :
  is_safe (c_id c) = true ->
  step w (SelectCategory (number_to_string (c_id c))) = Some w1 ->
  step w1 (Reply (length (inflight w)) (RProducts (AxiosOk (PArray l)))) = Some w2 ->
  selectedCategory (st w2) = number_to_string (c_id c) /\
  products (st w2) = PArray (List.filter (fun p => bool_decide (category_id p = JNum (c_id c))) l) /\
  inflight w2 = inflight w.
Proof.
  intros Hs. pose proof (number_to_string_truthy (c_id c)) as Ht.
  pose proof (in_category_id (c_id c)) as Hin.
  remember (number_to_string (c_id c)) as v eqn:Hv. clear Hv.
  simpl. user_guard Hm G.
  rewrite lookup_issued. simpl. rewrite products_passes. mounted_simpl Hm.
  intros [= <-]. unfold getProducts_resume. rewrite Ht. simpl. split_and!; [done| |].
  - f_equal. apply filter_ext. intros p. by apply Hin.
  - by rewrite delete_middle, app_nil_r.
Qed.

(** C18: on a mounted page, a failed product fetch shows the client's message and leaves the loaded products and categories in place. *)
Theorem products_failure_keeps_data (w w' : world) (i : nat) (c : jsstring) (e : axios_error) :
  mounted w = true -> inflight w !! i = Some (PendProducts c) ->
  step w (Reply i (RProducts (AxiosError e))) = Some w' ->
  exists m, call_finish api_products (AxiosError e) = Rejected m /\ error (st w') = Some m /\
    products (st w') = products (st w) /\ categories (st w') = categories (st w) /\
    inflight w' = delete i (inflight w) /\ sent w' = sent w.
Proof.
  intros Hm Hk. rewrite (step_reply _ _ _ _ Hk). simpl.
  destruct products_fails as (m & Hf & _). rewrite Hf. mounted_simpl Hm.
  intros [= <-]. by exists m.
Qed.

(** C19: on a mounted page, a products payload that is not an array: with a category selected the TypeError of [filter] becomes the error and the products stay; without one it is stored and the page shows the placeholder. *)
Theorem products_not_array (w w' : world) (i : nat) (c : jsstring) :
  mounted w = true -> inflight w !! i = Some (PendProducts c) ->
  step w (Reply i (RProducts (AxiosOk PNotArray))) = Some w' ->
  (str_truthy c = true ->
     error (st w') = Some filter_type_error /\ products (st w') = products (st w)) /\
  (c = [] -> products (st w') = PNotArray /\ error (st w') = error (st w)).
Proof.
  intros Hm Hk. rewrite (step_reply _ _ _ _ Hk). simpl. rewrite products_passes.
  mounted_simpl Hm. intros [= <-]. unfold getProducts_resume.
  split; intros Hc; [rewrite Hc | subst c]; done.
Qed.

(** C23: one click on a toggle sets every long card to the same label: the expansion flag is shared by all cards. *)
Theorem toggle_flips_every_card (w w' : world) (ps : list product) :
  step w ClickToggle = Some w' -> products (st w) = PArray ps ->
  products (st w') = PArray ps /\
  forall p c, p ∈ ps -> render_card (showFullDescription (st w')) p = Some c ->
    200 < length (description p) ->
    card_toggle c = Some (if showFullDescription (st w) then ‹"Read more"› else ‹"Show less"›).
Proof.
  simpl. user_guard Hm G. intros Hp.
  split; [done|]. intros p c _ Hc Hlong. simpl in Hc.
  destruct (render_card_inv _ _ _ Hc) as [_ ->]. unfold js_length.
  destruct (Z.gtb_spec (Z.of_nat (length (description p))) 200); [|lia].
  by destruct (showFullDescription (st w)).
Qed.

Lemma step_sent (w w' : world) (e : event) :
  step w e = Some w' ->
  exists extra, sent w' = sent w ++ extra /\ Forall allowed_request extra /\ length extra <= 1.
Proof.
  unfold allowed_request.
  destruct e as [v| |v| | |i rp]; simpl.
  - user_guard Hm G. exists []. rewrite app_nil_r. split; [done|]. split; [constructor | simpl; lia].
  - user_guard Hm G.
    assert (Hu : str_truthy (url (st w)) = true) by tauto. rewrite ?Hu. simpl.
    eexists. split; [reflexivity|]. split; [|simpl; lia].
    constructor; [|constructor]. right; right. eauto.
  - user_guard Hm G. eexists. split; [reflexivity|]. split; [|simpl; lia].
    constructor; [|constructor]. first [by left | by right; left].
  - user_guard Hm G. exists []. rewrite app_nil_r. split; [done|]. split; [constructor | simpl; lia].
  - case_if G; [|done]. intros [= <-]. exists []. rewrite app_nil_r. split; [done|]. split; [constructor | simpl; lia].
  - destruct (inflight w !! i) as [k|]; [|done].
    destruct (mounted w) eqn:Hm;
    destruct k as [c| |u], rp as [o|o|o]; simpl; try done;
      try destruct (call_finish (api_submit u) o); mounted_simpl Hm; intros [= <-];
      first [exists []; rewrite app_nil_r; split; [done|]; split; [constructor | simpl; lia]
            | eexists; split; [reflexivity|]; split; [|simpl; lia];
              constructor; [first [by left | by right; left] | constructor]].
Qed.

(** C9: every request the page sends is a list fetch or the submission of a nonempty URL: no empty URL is ever posted. *)
Theorem sent_requests_allowed (w : world) :
  reachable w -> Forall allowed_request (sent w).
Proof.
  induction 1 as [|w e w' _ IH Hs].
  - unfold allowed_request. simpl.
    repeat (constructor; [first [by left | by right; left]|]). constructor.
  - destruct (step_sent _ _ _ Hs) as (extra & -> & Hx & _). by apply Forall_app.
Qed.

(** C35: a run of n events and replies sends at most n requests, appended to those already sent: each user event sends at most one request, each reply at most the reload of a successful submission, and no request is withdrawn. *)
Theorem run_sends_at_most (w w' : world) (es : list event) :
  run w es = Some w' ->
  exists extra, sent w' = sent w ++ extra /\ length extra <= length es.
Proof.
  revert w. induction es as [|e es IH]; intros w; simpl.
  - intros [= <-]. exists []. rewrite app_nil_r. split; [done | simpl; lia].
  - destruct (step w e) as [w1|] eqn:Hs; [|done]. intros Hrun.
    destruct (step_sent _ _ _ Hs) as (x1 & Hx1 & _ & Hl1).
    destruct (IH w1 Hrun) as (x2 & Hx2 & Hl2).
    exists (x1 ++ x2). rewrite Hx2, Hx1, app_assoc, length_app. split; [done | lia].
Qed.

(** C11: no step but a form submission clears a displayed error, and no step clears the success message: neither message is dismissed. *)
Theorem messages_persist (w w' : world) (e : event) :
  step w e = Some w' ->
  (e <> SubmitForm -> error (st w) <> None -> error (st w') <> None) /\
  (successMessage (st w) = submitted_ok -> successMessage (st w') = submitted_ok).
Proof.
  intros Hs. destruct (mounted w) eqn:Hm0.
  2:{ by destruct (step_mounted_false _ _ _ Hm0 Hs) as [_ ->]. }
  revert Hs. destruct e as [v| |v| | |i rp]; simpl.
  - user_guard Hm G. done.
  - user_guard Hm G. split; [done|]. intros Hmsg. by destruct (str_truthy (url (st w))).
  - user_guard Hm G. done.
  - user_guard Hm G. done.
  - case_if G; [|done]. by intros [= <-].
  - destruct (inflight w !! i) as [k|]; [|done].
    destruct k as [c| |u], rp as [o|o|o]; simpl; try done;
      [| |destruct (call_finish (api_submit u) o)]; mounted_simpl Hm0; intros [= <-]; simpl.
    + unfold getProducts_resume. split; [|by repeat case_match].
      intros _ Hne. repeat case_match; simpl; done.
    + unfold getCategories_resume. split; [|by case_match]. intros _ Hne. case_match; done.
    + done.
    + done.
Qed.

(** C20: on a mounted page with a category selected, a product array whose category_id values are JSON strings filters to nothing: strict equality with Number(categoryId) never holds. *)
Theorem string_category_ids_filter_to_nothing (w w' : world) (i : nat) (c : jsstring)
    (l : list product) :
  mounted w = true -> inflight w !! i = Some (PendProducts c) -> str_truthy c = true ->
  Forall (fun p => exists t, category_id p = JStr t) l ->
  step w (Reply i (RProducts (AxiosOk (PArray l)))) = Some w' ->
  products (st w') = PArray [].
Proof.
  intros Hm Hk Hc Hl. rewrite (step_reply _ _ _ _ Hk). simpl. rewrite products_passes.
  mounted_simpl Hm. intros [= <-]. unfold getProducts_resume. rewrite Hc. simpl. f_equal.
  apply filter_all_false. eapply list.Forall_impl; [exact Hl|].
  intros p [t Ht]. unfold in_category. by rewrite Ht.
Qed.

(** C24: a submission that succeeds after the page is unmounted changes no state but still sends the product reload and suspends its handler: nothing cancels the requests of an unmounted page. *)
Theorem late_submit_reply_reloads (w w' : world) (i : nat) (u : jsstring) (d : unit) :
  mounted w = false -> inflight w !! i = Some (PendSubmit u) ->
  step w (Reply i (RSubmit (AxiosOk d))) = Some w' ->
  st w' = st w /\ mounted w' = false /\
  inflight w' = delete i (inflight w) ++ [PendProducts []] /\
  sent w' = sent w ++ [call_request api_products].
Proof.
  intros Hm Hk. rewrite (step_reply _ _ _ _ Hk). simpl.
  rewrite (submit_passes u d). mounted_simpl Hm. by intros [= <-].
Qed.

End Props.

(** C32: the page ignores the detail of a failed request (spec section 9, opaque errors): with the client of [ProductURl.tsx], whatever axios's error (its message, its HTTP status or none), a failed reply of any kind leads to the same world, since [rethrow] replaces the error by a fixed message. *)
Theorem error_detail_ignored (w : world) (i : nat) (e e' : axios_error) :
  step w (Reply i (RProducts (AxiosError e))) = step w (Reply i (RProducts (AxiosError e'))) /\
  step w (Reply i (RCategories (AxiosError e))) = step w (Reply i (RCategories (AxiosError e'))) /\
  step w (Reply i (RSubmit (AxiosError e))) = step w (Reply i (RSubmit (AxiosError e'))).
Proof.
  simpl. destruct (inflight w !! i) as [[c| |u]|]; simpl; split_and!; reflexivity.
Qed.

(** ** Witnesses, at the client of [ProductURl.tsx] *)



Lemma submitting_world_reachable : reachable submitting_world.
Proof. apply (run_reachable init_world _ (loaded_trace ++ [TypeURL sample_url; SubmitForm])); [constructor | vm_compute; reflexivity]. Qed.

Lemma submit_flag_invariant_witness :
  reachable submitting_world /\ isSubmittingURL (st submitting_world) = true /\
  submits (inflight submitting_world) = 1.
Proof.
  pose proof (submit_flag_invariant submitting_world submitting_world_reachable
                               ltac:(vm_compute; reflexivity)) as H.
  split; [exact submitting_world_reachable|]. vm_compute in H |- *. split; [reflexivity | exact H].
Defined.

Lemma run_sends_at_most_witness :
  exists w', run loaded_world [TypeURL sample_url; SubmitForm] = Some w' /\
    exists extra, sent w' = sent loaded_world ++ extra /\ length extra <= 2.
Proof.
  take_step (run loaded_world [TypeURL sample_url; SubmitForm]) H.
  eexists. split; [exact H|].
  exact (run_sends_at_most loaded_world _ [TypeURL sample_url; SubmitForm] H).
Defined.

Lemma submit_success_witness :
  exists w', inflight submitting_world !! 0 = Some (PendSubmit sample_url) /\
    step submitting_world (Reply 0 (RSubmit (AxiosOk tt))) = Some w' /\
    url (st w') = [] /\ inflight w' = [PendProducts []].
Proof.
  take_step (step submitting_world (Reply 0 (RSubmit (AxiosOk tt)))) H.
  eexists. split; [vm_compute; reflexivity|]. split; [exact H|].
  destruct (submit_success submitting_world _ 0 sample_url tt ltac:(vm_compute; reflexivity)
              ltac:(vm_compute; reflexivity) H) as (Hu & _ & _ & _ & _ & _ & Hi & _).
  rewrite Hu, Hi. split; reflexivity.
Defined.

Lemma submit_failure_witness :
  exists w', inflight submitting_world !! 0 = Some (PendSubmit sample_url) /\
    step submitting_world (Reply 0 (RSubmit (AxiosError network_error))) = Some w' /\
    url (st w') = sample_url /\
    error (st w') = Some ‹"Failed to submit URL. Please try again."›.
Proof.
  take_step (step submitting_world (Reply 0 (RSubmit (AxiosError network_error)))) H.
  eexists. split; [vm_compute; reflexivity|]. split; [exact H|].
  destruct (submit_failure submitting_world _ 0 sample_url network_error ltac:(vm_compute; reflexivity)
              ltac:(vm_compute; reflexivity) H) as (m & Hm & Hu & He & _).
  simpl in Hm. injection Hm as <-. rewrite Hu, He. split; [vm_compute|]; reflexivity.
Defined.

Lemma handleURLSubmit_empty_witness :
  url (st loaded_world) = [] /\ inflight (handleURLSubmit loaded_world) = [] /\
  error (st (handleURLSubmit loaded_world)) = Some url_required.
Proof.
  assert (Hu : url (st loaded_world) = []) by (vm_compute; reflexivity).
  destruct (handleURLSubmit_empty loaded_world ltac:(vm_compute; reflexivity) Hu) as (Hi & _ & Hs).
  split; [exact Hu|]. rewrite Hi, Hs. split; vm_compute; reflexivity.
Defined.

Lemma select_category_filters_witness :
  exists w1 w2,
    is_safe 3 = true /\
    step loaded_world (SelectCategory (number_to_string 3)) = Some w1 /\
    step w1 (Reply 0 (RProducts (AxiosOk (PArray sample_products)))) = Some w2 /\
    products (st w2) = PArray [sample_product 1 3 ‹"Short"›; sample_product 3 3 ‹"Also short"›].
Proof.
  take_step (step loaded_world (SelectCategory (number_to_string 3))) H1.
  let w1 := reached H1 in
  take_step (step w1 (Reply 0 (RProducts (AxiosOk (PArray sample_products))))) H2.
  do 2 eexists. split; [reflexivity|]. split; [exact H1|]. split; [exact H2|].
  destruct (select_category_filters loaded_world _ _ (sample_category 3) sample_products
              ltac:(vm_compute; reflexivity) H1 H2) as (_ & Hp & _).
  rewrite Hp. vm_compute. reflexivity.
Defined.

Lemma products_failure_keeps_data_witness :
  exists w', inflight init_world !! 1 = Some (PendProducts []) /\
    step init_world (Reply 1 (RProducts (AxiosError network_error))) = Some w' /\
    products (st w') = PArray [] /\
    error (st w') = Some ‹"Failed to fetch products. Please try again."›.
Proof.
  take_step (step init_world (Reply 1 (RProducts (AxiosError network_error)))) H.
  eexists. split; [vm_compute; reflexivity|]. split; [exact H|].
  destruct (products_failure_keeps_data init_world _ 1 [] network_error ltac:(vm_compute; reflexivity)
              ltac:(vm_compute; reflexivity) H) as (m & Hm & He & Hp & _).
  simpl in Hm. injection Hm as <-. rewrite Hp, He. split; [vm_compute|]; reflexivity.
Defined.

Lemma products_not_array_witness :
  exists w', inflight selecting_world !! 0 = Some (PendProducts ‹"3"›) /\
    step selecting_world (Reply 0 (RProducts (AxiosOk PNotArray))) = Some w' /\
    error (st w') = Some filter_type_error.
Proof.
  take_step (step selecting_world (Reply 0 (RProducts (AxiosOk PNotArray)))) H.
  eexists. split; [vm_compute; reflexivity|]. split; [exact H|].
  destruct (products_not_array selecting_world _ 0 ‹"3"› ltac:(vm_compute; reflexivity)
              ltac:(vm_compute; reflexivity) H) as [Hc _].
  exact (proj1 (Hc eq_refl)).
Defined.

Lemma toggle_flips_every_card_witness :
  exists w', step loaded_world ClickToggle = Some w' /\
    products (st loaded_world) = PArray sample_products /\
    products (st w') = PArray sample_products.
Proof.
  take_step (step loaded_world ClickToggle) H.
  assert (Hp : products (st loaded_world) = PArray sample_products) by (vm_compute; reflexivity).
  eexists. split; [exact H|]. split; [exact Hp|].
  exact (proj1 (toggle_flips_every_card loaded_world _ sample_products H Hp)).
Defined.

Lemma sent_requests_allowed_witness :
  reachable submitting_world /\ Forall allowed_request (sent submitting_world).
Proof.
  split; [exact submitting_world_reachable|].
  exact (sent_requests_allowed _ submitting_world_reachable).
Defined.

Lemma messages_persist_witness :
  exists w1 w2,
    step init_world (Reply 1 (RProducts (AxiosError network_error))) = Some w1 /\
    step w1 (TypeURL sample_url) = Some w2 /\ TypeURL sample_url <> SubmitForm /\
    error (st w1) <> None /\ error (st w2) <> None.
Proof.
  take_step (step init_world (Reply 1 (RProducts (AxiosError network_error)))) H1.
  let w1 := reached H1 in take_step (step w1 (TypeURL sample_url)) H2.
  assert (Hne : TypeURL sample_url <> SubmitForm) by discriminate.
  let w1 := reached H1 in
  assert (He : error (st w1) <> None) by (intros Heq; vm_compute in Heq; discriminate).
  do 2 eexists. split; [exact H1|]. split; [exact H2|]. split; [exact Hne|].
  split; [exact He|]. exact (proj1 (messages_persist _ _ _ H2) Hne He).
Defined.

Lemma string_category_ids_filter_to_nothing_witness :
  exists w',
    inflight selecting_world !! 0 = Some (PendProducts ‹"3"›) /\ str_truthy ‹"3"› = true /\
    Forall (fun p => exists t, category_id p = JStr t) [sample_string_product] /\
    step selecting_world (Reply 0 (RProducts (AxiosOk (PArray [sample_string_product])))) = Some w' /\
    products (st w') = PArray [].
Proof.
  take_step (step selecting_world (Reply 0 (RProducts (AxiosOk (PArray [sample_string_product]))))) H.
  assert (Hk : inflight selecting_world !! 0 = Some (PendProducts ‹"3"›)) by (vm_compute; reflexivity).
  assert (Hl : Forall (fun p => exists t, category_id p = JStr t) [sample_string_product])
    by (repeat constructor; eexists; reflexivity).
  eexists. split; [exact Hk|]. split; [reflexivity|]. split; [exact Hl|]. split; [exact H|].
  exact (string_category_ids_filter_to_nothing selecting_world _ 0 _ _ ltac:(vm_compute; reflexivity) Hk eq_refl Hl H).
Defined.

Lemma late_submit_reply_reloads_witness :
  exists w', mounted unmounted_world = false /\
    inflight unmounted_world !! 0 = Some (PendSubmit sample_url) /\
    step unmounted_world (Reply 0 (RSubmit (AxiosOk tt))) = Some w' /\
    sent w' = sent unmounted_world ++ [call_request api_products].
Proof.
  take_step (step unmounted_world (Reply 0 (RSubmit (AxiosOk tt)))) H.
  assert (Hm : mounted unmounted_world = false) by (vm_compute; reflexivity).
  assert (Hk : inflight unmounted_world !! 0 = Some (PendSubmit sample_url))
    by (vm_compute; reflexivity).
  eexists. split; [exact Hm|]. split; [exact Hk|]. split; [exact H|].
  exact (proj2 (proj2 (proj2 (late_submit_reply_reloads _ _ 0 sample_url tt Hm Hk H)))).
Defined.

Lemma button_tracks_submission_witness :
  exists pg, reachable submitting_world /\ render (st submitting_world) = Some pg /\
    pg_button_disabled pg = true /\ pg_button_label pg = ‹"Submitting..."›.
Proof.
  take_step (render (st submitting_world)) H.
  eexists. split; [exact submitting_world_reachable|]. split; [exact H|].
  destruct (button_tracks_submission submitting_world _ submitting_world_reachable
              ltac:(vm_compute; reflexivity) H) as [Hd Hl].
  rewrite Hd, Hl. split; vm_compute; reflexivity.
Defined.

Lemma error_slot_typed_witness :
  exists w, run init_world [Reply 1 (RProducts (AxiosError network_error))] = Some w /\ reachable w /\
    error (st w) = Some ‹"Failed to fetch products. Please try again."› /\ error_typed (error (st w)).
Proof.
  take_step (run init_world [Reply 1 (RProducts (AxiosError network_error))]) H.
  pose proof (run_reachable _ _ _ reach_init H) as Hr.
  eexists. split; [exact H|]. split; [exact Hr|]. split; [vm_compute; reflexivity|].
  exact (error_slot_typed _ Hr).
Defined.

Lemma failure_keeps_page_witness :
  exists w', reply_failed (RProducts (AxiosError network_error)) = true /\
    step init_world (Reply 1 (RProducts (AxiosError network_error))) = Some w' /\
    renders (st w') = true.
Proof.
  take_step (step init_world (Reply 1 (RProducts (AxiosError network_error)))) H.
  eexists. split; [reflexivity|]. split; [exact H|].
  destruct (failure_keeps_page init_world _ 1 (RProducts (AxiosError network_error)) eq_refl H) as (_ & _ & ->).
  vm_compute. reflexivity.
Defined.

Lemma error_detail_ignored_witness :
  step init_world (Reply 1 (RProducts (AxiosError (mkAxiosError ‹"Request failed with status code 404"› (Some 404%Z))))) =
  step init_world (Reply 1 (RProducts (AxiosError network_error))).
Proof.
  exact (proj1 (error_detail_ignored init_world 1
                  (mkAxiosError ‹"Request failed with status code 404"› (Some 404%Z)) network_error)).
Defined.

End View.
