(* ===== verification/Interleaving.v ===== *)
(** * Interleavings of the page's handlers

    The requests of [Product.tsx] are answered in any order and user
    events run between them.  This file shows that the requests in
    flight can always be drained (each reply settles one of them, and
    only a successful submission starts another) and that a mounted
    page always settles along the trace of replies a network gives
    ([eventually net settled]), that the two mount fetches settle
    independently, that with replies in the order of the requests the
    page shows the backend's list filtered by the selected category,
    when two replies commute as worlds,
    and the interleavings that break the spec's statement that
    the rendered products are the last fetch filtered by the selected
    category: a stale reply of an earlier selection, and the unfiltered
    reload after a submission.  It also shows that the single error slot
    makes the message depend on the order of the mount replies. *)

From S2P Require Import Prelude JsString Client Render View.
Import JsString Render View.

Module Interleaving.

(** A reply of the kind a request expects. *)
Definition answers (k : pending) (rp : reply) : bool :=
  match k, rp with
  | PendProducts _, RProducts _ | PendCategories, RCategories _
  | PendSubmit _, RSubmit _ => true
  | _, _ => false
  end.

(** The measure that each reply decreases. *)
Definition weight (l : list pending) : nat := length l + submits l.

(** The network that answers at once with the backend's lists. *)
Definition network (db : list product) (cats : list category) (k : pending) : reply :=
  match k with
  | PendProducts _ => RProducts (AxiosOk (PArray db))
  | PendCategories => RCategories (AxiosOk (PArray cats))
  | PendSubmit _ => RSubmit (AxiosOk tt)
  end.

(** The spec's view of the products: the last fetch filtered by the
    selected category (section 3). *)
Definition spec_products (db : list product) (sel : jsstring) : payload product :=
  if str_truthy sel then PArray (List.filter (in_category sel) db) else PArray db.

(** The category of the last products request in flight, if any. *)
Fixpoint last_products (l : list pending) : option jsstring :=
  match l with
  | [] => None
  | PendProducts c :: r =>
      match last_products r with Some c' => Some c' | None => Some c end
  | _ :: r => last_products r
  end.

(** The events of a first-in first-out network with no submission: the
    user types, selects, toggles or leaves, and only the oldest request
    in flight is answered, a products request with an array. *)
Definition fifo_event (e : event) : bool :=
  match e with
  | SubmitForm => false
  | Reply i rp =>
      Nat.eqb i 0 &&
      match rp with
      | RProducts (AxiosOk (PArray _)) | RCategories _ => true
      | _ => false
      end
  | _ => true
  end.

(** While mounted: the last products request in flight is for the
    selected category, and with none in flight the products shown are
    the spec's view of the backend's list [db]. *)
Definition fifo_inv (db : list product) (w : world) : Prop :=
  mounted w = true ->
  match last_products (inflight w) with
  | Some c => c = selectedCategory (st w)
  | None => products (st w) = spec_products db (selectedCategory (st w))
  end.

(** Both mount replies, category 3 then "All Categories", both answered
    in the order they were sent. *)
Definition fifo_trace : list event :=
  loaded_trace ++
  [SelectCategory ‹"3"›; SelectCategory [];
   Reply 0 (RProducts (AxiosOk (PArray sample_products)));
   Reply 0 (RProducts (AxiosOk (PArray sample_products)))].

Section Drain.
Context `{ApiClient}.

(** Answer the oldest request in flight with the network's answer
    [net], at most [fuel] times. *)
Fixpoint drain (fuel : nat) (net : pending -> reply) (w : world) : world :=
  match fuel with
  | 0 => w
  | S n =>
      match inflight w with
      | [] => w
      | k :: _ =>
          match step w (Reply 0 (net k)) with
          | Some w' => drain n net w'
          | None => w
          end
      end
  end.

(** A user event followed by the replies to the requests it sent. *)
Definition sync_step (db : list product) (cats : list category) (w : world) (e : event)
    : option world :=
  match step w e with
  | Some w1 => Some (drain (weight (inflight w1)) (network db cats) w1)
  | None => None
  end.

Fixpoint sync_run (db : list product) (cats : list category) (w : world) (es : list event)
    : option world :=
  match es with
  | [] => Some w
  | e :: rest =>
      match sync_step db cats w e with
      | Some w' => sync_run db cats w' rest
      | None => None
      end
  end.

(** [P] holds now, or after the network [net] answers the oldest
    request in flight and [P] holds eventually from there: the trace of
    replies the network gives, with no user event and no unmounting. *)
Inductive eventually (net : pending -> reply) (P : world -> Prop) : world -> Prop :=
| ev_now w : P w -> eventually net P w
| ev_later w k rest w' :
    inflight w = k :: rest -> step w (Reply 0 (net k)) = Some w' ->
    eventually net P w' -> eventually net P w.

(** A settled page: reachable, nothing in flight, still mounted, and
    the submit button enabled. *)
Definition settled (w : world) : Prop :=
  reachable w /\ inflight w = [] /\ mounted w = true /\ isSubmittingURL (st w) = false.

(** The abstract state the spec describes, and its relation to a world. *)
Definition spec_inv (db : list product) (w : world) : Prop :=
  inflight w = [] /\ products (st w) = spec_products db (selectedCategory (st w)).
End Drain.

(** Whether a reply's continuation writes the shared [error] slot. *)
Definition products_reply_sets_error (c : jsstring) (r : result (payload product)) : bool :=
  match r with
  | Rejected _ => true
  | Resolved PNotArray => str_truthy c
  | Resolved (PArray _) => false
  end.

Definition categories_reply_sets_error (r : result (payload category)) : bool :=
  match r with
  | Rejected _ => true
  | Resolved _ => false
  end.

(** The network's answer that fails every request. *)
Definition fail_all (k : pending) : reply :=
  match k with
  | PendProducts _ => RProducts (AxiosError network_error)
  | PendCategories => RCategories (AxiosError network_error)
  | PendSubmit _ => RSubmit (AxiosError network_error)
  end.

(** Every products reply of a trace carries the array [db]. *)
Definition server_returns (db : list product) (es : list event) : Prop :=
  Forall (fun e => match e with
                   | Reply _ (RProducts o) => o = AxiosOk (PArray db)
                   | _ => True
                   end) es.

(** Select category 3, then "All Categories"; the reply to the second
    request comes first. *)
Definition stale_trace : list event :=
  loaded_trace ++
  [SelectCategory ‹"3"›; SelectCategory [];
   Reply 1 (RProducts (AxiosOk (PArray sample_products)));
   Reply 0 (RProducts (AxiosOk (PArray sample_products)))].

(** Select category 3, then submit a URL; the submission succeeds and
    its reload comes back. *)
Definition reload_trace : list event :=
  loaded_trace ++
  [SelectCategory ‹"3"›; Reply 0 (RProducts (AxiosOk (PArray sample_products)));
   TypeURL sample_url; SubmitForm; Reply 0 (RSubmit (AxiosOk tt));
   Reply 0 (RProducts (AxiosOk (PArray sample_products)))].

(** What a list slot holds after its fetch: the data when it resolved,
    the initial empty array when it failed. *)
Definition slot_after {A} (r : result (payload A)) : payload A :=
  match r with
  | Resolved d => d
  | Rejected _ => PArray []
  end.

(** The two orders in which the mount replies can arrive. *)
Definition mount_orders (o1 : axios_outcome (payload category))
    (o2 : axios_outcome (payload product)) : list (list event) :=
  [[Reply 0 (RCategories o1); Reply 0 (RProducts o2)];
   [Reply 1 (RProducts o2); Reply 0 (RCategories o1)]].

(** ** Draining *)

Section Props.
Context `{Hspec : ApiClientSpec}.

Lemma resume_answers (k : pending) (rp : reply) (w : world) :
  answers k rp = true -> is_Some (resume k rp w).
Proof. destruct k, rp; simpl; by eauto. Qed.

Lemma resume_weight (k : pending) (rp : reply) (w w' : world) :
  resume k rp w = Some w' ->
  weight (inflight w') <= weight (inflight w) + (if is_submit k then 1 else 0).
Proof.
  unfold weight. destruct w as [s l snt m].
  destruct k as [c| |u], rp as [o|o|o]; simpl; try done;
    [| |destruct (call_finish (api_submit u) o)];
    unfold handleURLSubmit_resume, getProducts, issue, update; destruct m; simpl;
    intros [= <-]; simpl; rewrite ?length_app, ?submits_app; simpl; lia.
Qed.

(** One reply to the oldest request lowers the weight. *)
Lemma step_head_weight (w w' : world) k rest rp :
  inflight w = k :: rest -> step w (Reply 0 rp) = Some w' ->
  weight (inflight w') < weight (inflight w).
Proof.
  intros Hw. simpl. rewrite Hw. simpl. intros Hr.
  pose proof (resume_weight _ _ _ _ Hr) as Hle. revert Hle. simpl.
  unfold weight. simpl. destruct (is_submit k); lia.
Qed.

Lemma drain_reachable (net : pending -> reply) (fuel : nat) (w : world) :
  reachable w -> reachable (drain fuel net w).
Proof.
  revert w. induction fuel as [|n IH]; intros w Hw; [exact Hw|]. cbn [drain].
  destruct (inflight w) as [|k rest]; [done|].
  destruct (step w (Reply 0 (net k))) as [w'|] eqn:Hs; [|done].
  apply IH. eapply reach_step; [exact Hw | exact Hs].
Qed.

(** C10: draining terminates: when the network answers every request with a reply of its kind, [weight] replies to the oldest request in flight (at most twice their number) settle all of them, whatever the outcomes, through reachable worlds. *)
Theorem drain_empties (net : pending -> reply) (fuel : nat) (w : world) :
  (forall k, answers k (net k) = true) ->
  weight (inflight w) <= fuel ->
  inflight (drain fuel net w) = [] /\ (reachable w -> reachable (drain fuel net w)).
Proof.
  intros Hnet Hf. split; [|apply drain_reachable]. revert w Hf.
  induction fuel as [|n IH]; intros w Hf; cbn [drain].
  - destruct (inflight w) eqn:E; [done|]. unfold weight in Hf. simpl in Hf. lia.
  - destruct (inflight w) as [|k rest] eqn:E; [done|].
    destruct (step w (Reply 0 (net k))) as [w'|] eqn:Hs.
    + apply IH. pose proof (step_head_weight w w' k rest (net k) E Hs) as Hlt.
      rewrite E in Hlt. lia.
    + exfalso. simpl in Hs. rewrite E in Hs. simpl in Hs.
      destruct (resume_answers k (net k) (mkWorld (st w) rest (sent w) (mounted w)) (Hnet k)) as [? Hr].
      congruence.
Qed.

(** The continuations of a categories reply and of a products reply
    commute on the state unless both write the shared error slot. *)
Lemma resume_states_commute (c : jsstring) (r1 : result (payload category))
    (r2 : result (payload product)) (s : state) :
  categories_reply_sets_error r1 = false \/ products_reply_sets_error c r2 = false ->
  getCategories_resume r1 (getProducts_resume c r2 s) =
  getProducts_resume c r2 (getCategories_resume r1 s).
Proof.
  destruct r1 as [d1|m1], r2 as [[l|]|m2]; simpl; destruct (str_truthy c); simpl;
    intros Hne; try reflexivity; destruct Hne; discriminate.
Qed.

(** A reply leaves the page mounted or unmounted as it was. *)
Lemma step_reply_mounted (w w' : world) (i : nat) (rp : reply) :
  step w (Reply i rp) = Some w' -> mounted w' = mounted w.
Proof.
  intros Hs. destruct (step_inv _ _ _ Hs) as (k & _ & Hr).
  apply resume_inv in Hr as [(? & ? & _ & _ & ->)|[(? & _ & _ & ->)|(? & ? & _ & _ & ->)]];
    unfold handleURLSubmit_resume, getProducts, issue, update; simpl; repeat case_match; done.
Qed.

(** C29: liveness: from every reachable world where the page is mounted, whatever each request's outcome, the trace of replies the network [net] gives to the oldest request in flight, with no user event and no unmounting, eventually settles the page: nothing is left in flight, the page is still mounted and the submitting flag is clear, so the button is enabled. *)
Theorem settles_eventually (net : pending -> reply) (w : world) :
  (forall k, answers k (net k) = true) -> reachable w -> mounted w = true ->
  eventually net settled w.
Proof.
  intros Hnet. remember (weight (inflight w)) as n eqn:Hn. revert w Hn.
  induction n as [n IH] using lt_wf_ind. intros w -> Hr Hm.
  destruct (inflight w) as [|k rest] eqn:E.
  - apply ev_now. split_and!; [done | done | done |].
    pose proof (reachable_submit_inv w Hr Hm) as Hi. rewrite E in Hi.
    by destruct (isSubmittingURL (st w)).
  - destruct (resume_answers k (net k) (mkWorld (st w) rest (sent w) (mounted w)) (Hnet k))
      as [w' Hr'].
    assert (Hs : step w (Reply 0 (net k)) = Some w') by (simpl; rewrite E; exact Hr').
    apply (ev_later _ _ w k rest w' E Hs).
    eapply IH; [| reflexivity | by eapply reach_step | by rewrite (step_reply_mounted _ _ _ _ Hs)].
    pose proof (step_head_weight w w' k rest (net k) E Hs) as Hlt. rewrite E in Hlt. exact Hlt.
Qed.

Lemma getProducts_resume_sel c r (s : state) :
  selectedCategory (getProducts_resume c r s) = selectedCategory s.
Proof. unfold getProducts_resume. by repeat case_match. Qed.

Lemma last_products_snoc (l : list pending) (v : jsstring) :
  last_products (l ++ [PendProducts v]) = Some v.
Proof. induction l as [|[c| |u] l IH]; simpl; rewrite ?IH; done. Qed.

(** What [server_returns] asks of one event. *)
Lemma server_returns_cons (db : list product) (e : event) (es : list event) :
  server_returns db (e :: es) ->
  match e with Reply _ (RProducts o) => o = AxiosOk (PArray db) | _ => True end /\
  server_returns db es.
Proof. unfold server_returns. intros Hf. by inversion Hf. Qed.

Lemma fifo_step (db : list product) (w w' : world) (e : event) :
  fifo_event e = true ->
  match e with Reply _ (RProducts o) => o = AxiosOk (PArray db) | _ => True end ->
  fifo_inv db w -> step w e = Some w' -> fifo_inv db w'.
Proof.
  unfold fifo_inv. intros He Hdb Hinv Hs Hm'. destruct (mounted w) eqn:Hm.
  2:{ destruct (step_mounted_false _ _ _ Hm Hs) as [Hf _]. congruence. }
  specialize (Hinv eq_refl). apply step_inv in Hs.
  destruct e as [v| |v| | |i rp]; try discriminate He.
  - destruct Hs as [_ ->]. by mounted_simpl Hm.
  - destruct Hs as [_ ->]. mounted_simpl Hm. by rewrite last_products_snoc.
  - destruct Hs as [_ ->]. by mounted_simpl Hm.
  - destruct Hs as [_ ->]. simpl in Hm'. congruence.
  - apply andb_true_iff in He as [Hi He]. apply Nat.eqb_eq in Hi as ->.
    destruct Hs as (k & Hk & Hr). destruct (inflight w) as [|k0 rest] eqn:E; [done|].
    injection Hk as ->.
    apply resume_inv in Hr as [(c & o & -> & -> & ->)|[(o & -> & -> & ->)|(u & o & -> & -> & ->)]];
      [destruct o as [[d|]|]|..]; try discriminate He; mounted_simpl Hm; rewrite ?E; simpl in Hinv |- *.
    + injection Hdb as ->. rewrite products_passes, getProducts_resume_sel.
      destruct (last_products rest); [done|]. subst c.
      unfold getProducts_resume, spec_products. by destruct (str_truthy (selectedCategory (st w))).
    + unfold getCategories_resume. by destruct (call_finish api_categories o).
Qed.

Lemma fifo_run (db : list product) (es : list event) (w w' : world) :
  forallb fifo_event es = true -> server_returns db es ->
  fifo_inv db w -> run w es = Some w' -> fifo_inv db w'.
Proof.
  revert w. induction es as [|e es IH]; intros w Hes Hdb Hw; simpl in *; [by intros [= <-]|].
  apply andb_true_iff in Hes as [He Hes]. apply server_returns_cons in Hdb as [Hde Hdb].
  destruct (step w e) as [w1|] eqn:Hs; [|done].
  apply IH; [done | done |]. exact (fifo_step db w w1 e He Hde Hw Hs).
Qed.

(** C31: with a first-in first-out network whose products replies all carry the backend's list [db], and no submission, the page refines the spec's view under any interleaving of user events: whenever the page is mounted and no products request is in flight, the products shown are [db] filtered by the selected category.  The stale reply of C7 needs replies out of order. *)
Theorem fifo_page_refines_spec (db : list product) (es : list event) (w : world) :
  forallb fifo_event es = true -> server_returns db es ->
  run init_world es = Some w -> mounted w = true ->
  last_products (inflight w) = None ->
  products (st w) = spec_products db (selectedCategory (st w)).
Proof.
  intros Hes Hdb Hr Hm Hl.
  assert (H0 : fifo_inv db init_world) by (intros _; reflexivity).
  pose proof (fifo_run db es init_world w Hes Hdb H0 Hr Hm) as Hf. by rewrite Hl in Hf.
Qed.

(** A successful array reply to a products request for [c] shows the
    spec's view of that list for [c]. *)
Lemma getProducts_resume_array (c : jsstring) (d : list product) (s : state) :
  getProducts_resume c (Resolved (PArray d)) s = setProducts (spec_products d c) s.
Proof. unfold getProducts_resume, spec_products. by destruct (str_truthy c). Qed.

(** C33: two products requests answered with arrays: the last reply to arrive decides the products shown, so the two orders give the same world exactly when both replies show the same list. *)
Theorem products_replies_order (w : world) (i j : nat) (c1 c2 : jsstring) (d1 d2 : list product) :
  mounted w = true -> i <= j ->
  inflight w !! i = Some (PendProducts c1) -> inflight w !! S j = Some (PendProducts c2) ->
  exists w1 w2,
    run w [Reply i (RProducts (AxiosOk (PArray d1))); Reply j (RProducts (AxiosOk (PArray d2)))]
      = Some w1 /\
    run w [Reply (S j) (RProducts (AxiosOk (PArray d2))); Reply i (RProducts (AxiosOk (PArray d1)))]
      = Some w2 /\
    products (st w1) = spec_products d2 c2 /\ products (st w2) = spec_products d1 c1 /\
    (w1 = w2 <-> spec_products d1 c1 = spec_products d2 c2).
Proof.
  intros Hm Hij Hi Hj. destruct w as [s l snt m]; simpl in Hm, Hi, Hj; subst m.
  simpl. rewrite Hi, Hj. simpl.
  rewrite list_lookup_delete_ge, Hj by lia. rewrite list_lookup_delete_lt, Hi by lia. simpl.
  rewrite !products_passes, !getProducts_resume_array, (delete_delete_le l i j Hij).
  eexists _, _. split; [reflexivity|]. split; [reflexivity|].
  unfold update, spec_products. simpl.
  destruct (str_truthy c1), (str_truthy c2); simpl; split_and!; try done;
    (split; [intros Heq; by apply (f_equal (fun w => products (st w))) in Heq
            | intros Heq; by rewrite Heq]).
Qed.

(** C21: a categories reply and a later-requested products reply may arrive in either order with the same resulting world (state, requests in flight, requests sent), unless both write the shared error slot; the index of the later request shifts down by one once the earlier one is answered. *)
Theorem replies_commute (w : world) (i j : nat) (c : jsstring)
    (o1 : axios_outcome (payload category)) (o2 : axios_outcome (payload product)) :
  i <= j -> inflight w !! i = Some PendCategories -> inflight w !! S j = Some (PendProducts c) ->
  categories_reply_sets_error (call_finish api_categories o1) = false \/
  products_reply_sets_error c (call_finish api_products o2) = false ->
  exists w', run w [Reply i (RCategories o1); Reply j (RProducts o2)] = Some w' /\
             run w [Reply (S j) (RProducts o2); Reply i (RCategories o1)] = Some w'.
Proof.
  intros Hij Hi Hj Hne. destruct w as [s l snt m]; simpl in Hi, Hj.
  destruct m; simpl; rewrite Hi, Hj; simpl;
    rewrite list_lookup_delete_ge, Hj by lia; rewrite list_lookup_delete_lt, Hi by lia; simpl;
    eexists; split; try reflexivity; rewrite (delete_delete_le l i j Hij);
    unfold update; simpl; [by rewrite resume_states_commute | done].
Qed.

Lemma sync_step_spec (db : list product) (cats : list category) (w w' : world) (e : event) :
  spec_inv db w -> e <> SubmitForm -> sync_step db cats w e = Some w' -> spec_inv db w'.
Proof.
  intros [Hi Hp] Hne. unfold sync_step. destruct w as [s l snt m]. simpl in Hi, Hp. subst l.
  destruct m, e as [v| |v| | |i rp]; simpl; unfold live; simpl; try done.
  - destruct (renders s); [|done]. intros [= <-]. split; [done | exact Hp].
  - destruct (renders s && _); [|done]. intros [= <-]. simpl.
    rewrite products_passes. split; [done|]. simpl.
    unfold getProducts_resume, spec_products. destruct (str_truthy v) eqn:E; simpl; by rewrite E.
  - destruct (renders s && _); [|done]. intros [= <-]. split; [done | exact Hp].
  - intros [= <-]. split; [done | exact Hp].
Qed.

(** C6: the page refines the spec's view when the network answers at once and no URL is submitted: after the mount and after every user event, nothing is in flight and the products shown are the backend's list filtered by the selected category. *)
Theorem sync_page_refines_spec (db : list product) (cats : list category) (es : list event)
    (w : world) :
  Forall (fun e => e <> SubmitForm) es ->
  sync_run db cats (drain 2 (network db cats) init_world) es = Some w ->
  spec_inv db w.
Proof.
  intros Hes. assert (H0 : spec_inv db (drain 2 (network db cats) init_world)).
  { unfold spec_inv. simpl. rewrite categories_passes. simpl. rewrite products_passes. done. }
  revert H0. generalize (drain 2 (network db cats) init_world) as w0.
  induction Hes as [|e es He _ IH]; intros w0 H0; simpl; [by intros [= <-]|].
  destruct (sync_step db cats w0 e) as [w1|] eqn:Hs; [|done].
  apply IH. exact (sync_step_spec db cats w0 w1 e H0 He Hs).
Qed.
(** C27: the two mount requests are independent: in either order of their replies and whatever their outcomes, both settle, the products slot holds the fetched products when that fetch succeeds and stays empty when it fails, and likewise for the categories slot. *)
Theorem mount_slots_independent (o1 : axios_outcome (payload category))
    (o2 : axios_outcome (payload product)) (order : list event) :
  order ∈ mount_orders o1 o2 ->
  exists w', run init_world order = Some w' /\ inflight w' = [] /\
    products (st w') = slot_after (call_finish api_products o2) /\
    categories (st w') = slot_after (call_finish api_categories o1).
Proof.
  unfold mount_orders. rewrite !elem_of_cons, elem_of_nil. intros [->|[->|[]]]; simpl;
    destruct (call_finish api_categories o1), (call_finish api_products o2); simpl; eauto.
Qed.
End Props.

(** ** Findings, at the client of [ProductURl.tsx] *)

(** C7: a stale reply overrides the selection: after selecting category 3 and then "All Categories", with the second reply arriving first, nothing is in flight, "All Categories" is selected and every products reply was the same array, yet the page shows the products of category 3 only. *)
Theorem stale_reply_overrides_selection :
  exists w db, run init_world stale_trace = Some w /\ server_returns db stale_trace /\
    inflight w = [] /\ selectedCategory (st w) = [] /\ products (st w) <> PArray db.
Proof.
  take_step (run init_world stale_trace) H.
  eexists _, sample_products. split; [exact H|].
  split; [unfold server_returns; simpl; repeat constructor|].
  split_and!; vm_compute; [reflexivity | reflexivity | congruence].
Qed.

(** C8: the reload after a successful submission ignores the selected category: with category 3 selected and nothing in flight, the page shows products of other categories although the selector still shows category 3. *)
Theorem submit_reload_ignores_filter :
  exists w db, run init_world reload_trace = Some w /\ server_returns db reload_trace /\
    inflight w = [] /\ selectedCategory (st w) = ‹"3"› /\
    products (st w) <> PArray (List.filter (in_category ‹"3"›) db).
Proof.
  take_step (run init_world reload_trace) H.
  eexists _, sample_products. split; [exact H|].
  split; [unfold server_returns; simpl; repeat constructor|].
  split_and!; vm_compute; [reflexivity | reflexivity | congruence].
Qed.

(** C22: the error shown after both mount requests fail depends on which reply came last: the two lists share one error slot. *)
Theorem mount_errors_order_dependent :
  exists w1 w2,
    run init_world [Reply 0 (RCategories (AxiosError network_error)); Reply 0 (RProducts (AxiosError network_error))] = Some w1 /\
    run init_world [Reply 1 (RProducts (AxiosError network_error)); Reply 0 (RCategories (AxiosError network_error))] = Some w2 /\
    error (st w1) = Some ‹"Failed to fetch products. Please try again."› /\
    error (st w2) = Some ‹"Failed to fetch category. Please try again."›.
Proof.
  take_step (run init_world [Reply 0 (RCategories (AxiosError network_error)); Reply 0 (RProducts (AxiosError network_error))]) H1.
  take_step (run init_world [Reply 1 (RProducts (AxiosError network_error)); Reply 0 (RCategories (AxiosError network_error))]) H2.
  eexists _, _. split; [exact H1|]. split; [exact H2|]. split; vm_compute; reflexivity.
Qed.

(** ** Witnesses *)

Lemma drain_empties_witness :
  (forall k, answers k (fail_all k) = true) /\ weight (inflight init_world) <= 2 /\
  inflight (drain 2 fail_all init_world) = [].
Proof.
  assert (Hnet : forall k, answers k (fail_all k) = true) by (intros []; reflexivity).
  assert (Hw : weight (inflight init_world) <= 2) by (vm_compute; lia).
  split; [exact Hnet|]. split; [exact Hw|].
  exact (proj1 (drain_empties fail_all 2 init_world Hnet Hw)).
Defined.

Lemma replies_commute_witness :
  exists w',
    run init_world [Reply 0 (RCategories (AxiosOk (PArray [sample_category 3])));
                    Reply 0 (RProducts (AxiosError network_error))] = Some w' /\
    run init_world [Reply 1 (RProducts (AxiosError network_error));
                    Reply 0 (RCategories (AxiosOk (PArray [sample_category 3])))] = Some w'.
Proof.
  exact (replies_commute init_world 0 0 [] (AxiosOk (PArray [sample_category 3])) (AxiosError network_error)
           ltac:(lia) ltac:(vm_compute; reflexivity) ltac:(vm_compute; reflexivity)
           ltac:(left; vm_compute; reflexivity)).
Defined.

Lemma sync_page_refines_spec_witness :
  exists w,
    Forall (fun e => e <> SubmitForm) [ClickToggle; SelectCategory ‹"3"›; SelectCategory []] /\
    sync_run sample_products [sample_category 3; sample_category 5]
      (drain 2 (network sample_products [sample_category 3; sample_category 5]) init_world)
      [ClickToggle; SelectCategory ‹"3"›; SelectCategory []] = Some w /\
    products (st w) = PArray sample_products.
Proof.
  take_step (sync_run sample_products [sample_category 3; sample_category 5]
      (drain 2 (network sample_products [sample_category 3; sample_category 5]) init_world)
      [ClickToggle; SelectCategory ‹"3"›; SelectCategory []]) H.
  assert (Hes : Forall (fun e => e <> SubmitForm)
                  [ClickToggle; SelectCategory ‹"3"›; SelectCategory []])
    by (repeat constructor; discriminate).
  eexists. split; [exact Hes|]. split; [exact H|].
  destruct (sync_page_refines_spec _ _ _ _ Hes H) as [_ Hp]. rewrite Hp.
  vm_compute. reflexivity.
Defined.

Lemma mount_slots_independent_witness :
  exists w',
    [Reply 1 (RProducts (AxiosOk (PArray sample_products))); Reply 0 (RCategories (AxiosError network_error))]
      ∈ mount_orders (AxiosError network_error) (AxiosOk (PArray sample_products)) /\
    run init_world [Reply 1 (RProducts (AxiosOk (PArray sample_products)));
                    Reply 0 (RCategories (AxiosError network_error))] = Some w' /\
    products (st w') = PArray sample_products /\ categories (st w') = PArray [].
Proof.
  assert (Hin : [Reply 1 (RProducts (AxiosOk (PArray sample_products))); Reply 0 (RCategories (AxiosError network_error))]
                  ∈ mount_orders (AxiosError network_error) (AxiosOk (PArray sample_products)))
    by (unfold mount_orders; right; left).
  destruct (mount_slots_independent _ _ _ Hin) as (w' & Hr & _ & Hp & Hc).
  exists w'. split; [exact Hin|]. split; [exact Hr|]. rewrite Hp, Hc. split; reflexivity.
Defined.

Lemma settles_eventually_witness :
  (forall k, answers k (fail_all k) = true) /\ reachable submitting_world /\
  mounted submitting_world = true /\ eventually fail_all settled submitting_world.
Proof.
  assert (Hn : forall k, answers k (fail_all k) = true) by (intros []; reflexivity).
  assert (Hm : mounted submitting_world = true) by (vm_compute; reflexivity).
  split; [exact Hn|]. split; [exact submitting_world_reachable|]. split; [exact Hm|].
  exact (settles_eventually fail_all submitting_world Hn submitting_world_reachable Hm).
Defined.

Lemma fifo_page_refines_spec_witness :
  exists w, forallb fifo_event fifo_trace = true /\ server_returns sample_products fifo_trace /\
    run init_world fifo_trace = Some w /\
    mounted w = true /\ last_products (inflight w) = None /\
    products (st w) = spec_products sample_products (selectedCategory (st w)).
Proof.
  take_step (run init_world fifo_trace) H.
  assert (Hdb : server_returns sample_products fifo_trace)
    by (unfold server_returns; simpl; repeat constructor).
  eexists. split; [reflexivity|]. split; [exact Hdb|]. split; [exact H|].
  split; [vm_compute; reflexivity|]. split; [vm_compute; reflexivity|].
  exact (fifo_page_refines_spec sample_products fifo_trace _ eq_refl Hdb H
           ltac:(vm_compute; reflexivity) ltac:(vm_compute; reflexivity)).
Defined.

Lemma products_replies_order_witness :
  exists w w1 w2, run loaded_world [SelectCategory ‹"3"›; SelectCategory []] = Some w /\
    inflight w !! 0 = Some (PendProducts ‹"3"›) /\ inflight w !! 1 = Some (PendProducts []) /\
    run w [Reply 0 (RProducts (AxiosOk (PArray sample_products)));
           Reply 0 (RProducts (AxiosOk (PArray sample_products)))] = Some w1 /\
    run w [Reply 1 (RProducts (AxiosOk (PArray sample_products)));
           Reply 0 (RProducts (AxiosOk (PArray sample_products)))] = Some w2 /\
    w1 <> w2.
Proof.
  take_step (run loaded_world [SelectCategory ‹"3"›; SelectCategory []]) H.
  let w := reached H in
  destruct (products_replies_order w 0 0 ‹"3"› [] sample_products sample_products
              ltac:(vm_compute; reflexivity) ltac:(lia) ltac:(vm_compute; reflexivity)
              ltac:(vm_compute; reflexivity)) as (w1 & w2 & H1 & H2 & _ & _ & Hiff).
  let w := reached H in exists w, w1, w2. split; [exact H|].
  split; [vm_compute; reflexivity|]. split; [vm_compute; reflexivity|].
  split; [exact H1|]. split; [exact H2|].
  intros Heq. apply Hiff in Heq. vm_compute in Heq. congruence.
Defined.

End Interleaving.
