(* ===== verification/Submission.v ===== *)
(** * The submission state machine of the spec, and its refinement
    The spec (section 4.2) describes URL submission as the machine
    [Idle -> Submitting -> Idle]: a form submission starts it, the reply
    of the submission (success or failure) ends it, and there is no
    other state.  [Module Submission] states that machine over the
    page's events and shows that the page's [isSubmittingURL] flag
    follows it along every run of a mounted page. *)

From S2P Require Import Prelude JsString Client Render View.
Import JsString Render View.

Module Submission.

(** The two states of the spec's machine. *)
Inductive phase := Idle | Submitting.

#[export] Instance phase_eq_dec : EqDecision phase.
Proof. solve_decision. Defined.

(** The machine's view of a world: the submitting flag. *)
Definition phase_of (w : world) : phase :=
  if isSubmittingURL (st w) then Submitting else Idle.

(** The spec's transitions: a submission starts only from [Idle], the
    reply of a submission arrives only in [Submitting] and returns to
    [Idle]; every other event leaves the phase alone.  [None] is a
    transition the machine does not have. *)
Definition spec_transition (a : phase) (e : event) : option phase :=
  match e, a with
  | SubmitForm, Idle => Some Submitting
  | SubmitForm, Submitting => None
  | Reply _ (RSubmit _), Submitting => Some Idle
  | Reply _ (RSubmit _), Idle => None
  | _, _ => Some a
  end.

Fixpoint spec_run (a : phase) (es : list event) : option phase :=
  match es with
  | [] => Some a
  | e :: rest =>
      match spec_transition a e with
      | Some a' => spec_run a' rest
      | None => None
      end
  end.

(** Submit a URL, let it fail, then type it and submit it again. *)
Definition resubmit_trace : list event :=
  [TypeURL sample_url; SubmitForm; Reply 0 (RSubmit (AxiosError network_error));
   TypeURL sample_url; SubmitForm].

Section Props.
Context `{Hspec : ApiClientSpec}.

(** A submission in flight on a mounted page whose invariant holds means
    the page is in [Submitting]. *)
Lemma pending_submit_phase (w : world) i u :
  mounted w = true -> submit_inv w -> inflight w !! i = Some (PendSubmit u) ->
  isSubmittingURL (st w) = true.
Proof.
  intros Hm Hinv Hk. specialize (Hinv Hm).
  rewrite (submits_delete _ _ _ Hk) in Hinv. simpl in Hinv.
  destruct (isSubmittingURL (st w)); [done | lia].
Qed.

(** One step of a mounted page is one transition of the machine. *)
Lemma step_phase (w w' : world) (e : event) :
  mounted w = true -> submit_inv w -> step w e = Some w' ->
  spec_transition (phase_of w) e = Some (phase_of w').
Proof.
  unfold phase_of. intros Hm0 Hinv.
  destruct e as [v| |v| | |i rp]; simpl.
  - user_guard Hm G. by destruct (isSubmittingURL (st w)).
  - user_guard Hm G. destruct G as [[_ Hf] Hu]. rewrite ?Hu. simpl.
    by destruct (isSubmittingURL (st w)).
  - user_guard Hm G. by destruct (isSubmittingURL (st w)).
  - user_guard Hm G. by destruct (isSubmittingURL (st w)).
  - case_if G; [|done]. intros [= <-]. simpl. by destruct (isSubmittingURL (st w)).
  - destruct (inflight w !! i) as [k|] eqn:Hk; [|done].
    destruct k as [c| |u], rp as [o|o|o]; simpl; try done; intros [= <-].
    + mounted_simpl Hm0. rewrite getProducts_resume_flag. by destruct (isSubmittingURL (st w)).
    + mounted_simpl Hm0. rewrite getCategories_resume_flag. by destruct (isSubmittingURL (st w)).
    + rewrite (pending_submit_phase w i u Hm0 Hinv Hk).
      destruct (handleURLSubmit_resume_flag (call_finish (api_submit u) o)
                  (mkWorld (st w) (delete i (inflight w)) (sent w) (mounted w)) Hm0) as [-> _].
      done.
Qed.

(** C26: the page refines the spec's submission machine: along every run from a reachable world that ends with the page mounted, the machine accepts the same events (a submission starts only from Idle, a submission's reply arrives only while Submitting) and ends in the phase the submitting flag shows. *)
Theorem submission_refines_machine (w w' : world) (es : list event) :
  reachable w -> run w es = Some w' -> mounted w' = true ->
  spec_run (phase_of w) es = Some (phase_of w').
Proof.
  intros Hr Hrun Hm'.
  enough (mounted w = true /\ spec_run (phase_of w) es = Some (phase_of w')) by tauto.
  revert w Hr Hrun. induction es as [|e es IH]; intros w Hr; simpl; [by intros [= <-]|].
  destruct (step w e) as [w1|] eqn:Hs; [|done]. intros Hrun.
  destruct (IH w1 (reach_step _ _ _ Hr Hs) Hrun) as [Hm1 Hrun1].
  destruct (mounted w) eqn:Hm.
  - split; [done|]. by rewrite (step_phase w w1 e Hm (reachable_submit_inv w Hr) Hs).
  - destruct (step_mounted_false _ _ _ Hm Hs) as [Hf _]. congruence.
Qed.

End Props.

(** ** Witnesses *)

Lemma submission_refines_machine_witness :
  exists w', run loaded_world resubmit_trace = Some w' /\ mounted w' = true /\
    spec_run (phase_of loaded_world) resubmit_trace = Some Submitting.
Proof.
  take_step (run loaded_world resubmit_trace) H.
  assert (Hr : reachable loaded_world)
    by (apply (run_reachable init_world _ loaded_trace); [constructor | vm_compute; reflexivity]).
  eexists. split; [exact H|]. split; [vm_compute; reflexivity|].
  rewrite (submission_refines_machine loaded_world _ resubmit_trace Hr H
             ltac:(vm_compute; reflexivity)).
  vm_compute. reflexivity.
Defined.

End Submission.
